(** * XtbFile: the xtb translation-bundle document of ngx-i18nsupport-lib

    A shallow embedding of [XtbFile] (xtb-file.ts): construction from file
    content with an optional xmb master, lazy initialisation of the trans
    units, the language accessors and [importNewTransUnit].

    The class mutates one object and throws JavaScript errors, so its
    methods are embedded in a state-and-exception monad over the record
    [XtbFile]; the state reached when an error is thrown is kept, as it
    is for a JavaScript object.  Classes that XtbFile only calls (the
    xmldom parser, XmbFile, the trans-unit classes) are interfaces here,
    with one small executable implementation used to run examples. *)

From Stdlib Require Import String Ascii List Arith Bool Lia.
From Stdlib Require Import DecimalString.
Import ListNotations.
Open Scope string_scope.

Set Warnings "-register-all".

(** ** Strings: what [util.format] needs *)

(** The double-quote character, ASCII 34. *)
Definition dquote : string := String (ascii_of_nat 34) EmptyString.

(** [format('%s', n)] for a JavaScript number holding a count. *)
Definition showNumber (n : nat) : string :=
  NilEmpty.string_of_uint (Nat.to_uint n).

(** [s.includes(pat)] as a proposition. *)
Definition Includes (s pat : string) : Prop :=
  exists before after, s = before ++ pat ++ after.

(** ** The DOM tree *)

(** The part of a parsed XML document the class looks at: elements with
    their tag name, attributes and children, and character data.  [Text]
    carries the characters as they stand in the file. *)
Inductive Node : Type :=
| Element (tagName : string) (attributes : list (string * string))
          (childNodes : list Node)
| Text (data : string).

(** The children of the document node. *)
Definition Document : Type := list Node.

Module Dom.

(** [doc.getElementsByTagName(name)]: all elements with that tag, in
    document order (an element before its descendants). *)
Fixpoint elementsOfNode (name : string) (n : Node) : list Node :=
  match n with
  | Text _ => []
  | Element t _ cs =>
      ((if String.eqb t name then [n] else [])
         ++ flat_map (elementsOfNode name) cs)%list
  end.

Definition getElementsByTagName (doc : list Node) (name : string) : list Node :=
  flat_map (elementsOfNode name) doc.

Fixpoint lookupAttribute (attrs : list (string * string)) (name : string)
  : option string :=
  match attrs with
  | [] => None
  | (k, v) :: rest => if String.eqb k name then Some v else lookupAttribute rest name
  end.

(** [elem.getAttribute(name)]; xmldom answers the empty string for an
    attribute that is not there. *)
Definition getAttribute (n : Node) (name : string) : string :=
  match n with
  | Element _ attrs _ =>
      match lookupAttribute attrs name with Some v => v | None => "" end
  | Text _ => ""
  end.

Fixpoint putAttribute (attrs : list (string * string)) (name value : string)
  : list (string * string) :=
  match attrs with
  | [] => [(name, value)]
  | (k, v) :: rest =>
      if String.eqb k name then (k, value) :: rest
      else (k, v) :: putAttribute rest name value
  end.

(** [elem.setAttribute(name, value)]. *)
Definition setAttribute (name value : string) (n : Node) : Node :=
  match n with
  | Element t attrs cs => Element t (putAttribute attrs name value) cs
  | Text d => Text d
  end.

(** [doc.createElement(tag)]. *)
Definition createElement (tag : string) : Node := Element tag [] [].

(** [elem.appendChild(child)]. *)
Definition appendChild (child : Node) (n : Node) : Node :=
  match n with
  | Element t attrs cs => Element t attrs (cs ++ [child])%list
  | Text d => Text d
  end.

(** An in-place change of the first element with tag [name] in document
    order, which is the element [getFirstElementByTagName] hands out:
    the tree with that element replaced by [change] of it, or [None]
    when no element has the tag. *)
Fixpoint updateFirstInNode (name : string) (change : Node -> Node) (n : Node)
  : option Node :=
  match n with
  | Text _ => None
  | Element t attrs cs =>
      if String.eqb t name then Some (change n)
      else
        let fix inChildren (l : list Node) : option (list Node) :=
          match l with
          | [] => None
          | c :: rest =>
              match updateFirstInNode name change c with
              | Some c' => Some (c' :: rest)
              | None =>
                  match inChildren rest with
                  | Some rest' => Some (c :: rest')
                  | None => None
                  end
              end
          end in
        match inChildren cs with
        | Some cs' => Some (Element t attrs cs')
        | None => None
        end
  end.

Fixpoint updateFirst (name : string) (change : Node -> Node) (doc : list Node)
  : option (list Node) :=
  match doc with
  | [] => None
  | n :: rest =>
      match updateFirstInNode name change n with
      | Some n' => Some (n' :: rest)
      | None =>
          match updateFirst name change rest with
          | Some rest' => Some (n :: rest')
          | None => None
          end
      end
  end.

(** A change that keeps an element an element of the same tag. *)
Definition keepsTag (change : Node -> Node) : Prop :=
  forall t attrs cs, exists attrs' cs', change (Element t attrs cs) = Element t attrs' cs'.

End Dom.

(** ** DOMUtilities *)

Module DOMUtilities.

(** Modelled from the spec: dom-utilities.ts is not among the sources;
    this is the tree provider's "get-first element by tag name". *)
Definition getFirstElementByTagName (doc : Document) (tagName : string)
  : option Node :=
  match Dom.getElementsByTagName doc tagName with
  | [] => None
  | first :: _ => Some first
  end.

(** Serialisation of a node: character data as it stands, an element
    with its tag, attributes and children. *)
Fixpoint outerXML (n : Node) : string :=
  match n with
  | Text d => d
  | Element t attrs cs =>
      "<" ++ t
        ++ String.concat ""
             (map (fun kv => " " ++ fst kv ++ "=" ++ dquote ++ snd kv ++ dquote) attrs)
        ++ ">" ++ String.concat "" (map outerXML cs) ++ "</" ++ t ++ ">"
  end.

(** Modelled from the spec: dom-utilities.ts is not among the sources;
    this is the tree provider's reading of an element's child content
    as a fragment of text. *)
Definition getXMLContent (el : Node) : string :=
  match el with
  | Element _ _ cs => String.concat "" (map outerXML cs)
  | Text d => d
  end.

(** Modelled from the spec: dom-utilities.ts is not among the sources;
    this is the tree provider's "replace child content".  The fragment
    is stored as the element's only child, as the characters given. *)
Definition replaceContentWithXMLContent (el : Node) (content : string) : Node :=
  match el with
  | Element t attrs _ => Element t attrs [Text content]
  | Text d => Text d
  end.

End DOMUtilities.

(** ** Effects: one mutable object, errors thrown *)

Module Eff.

(** The message of a thrown [Error]. *)
Definition Thrown : Type := string.

Section Monad.

Variable S : Type.

(** A method body run on the object state [S]: it ends with a value or
    with a thrown error, and with the state it has reached. *)
Definition M (A : Type) : Type := S -> (Thrown + A) * S.

Definition ret {A : Type} (a : A) : M A := fun s => (inr a, s).

Definition bind {A B : Type} (m : M A) (k : A -> M B) : M B :=
  fun s =>
    match m s with
    | (inl e, s') => (inl e, s')
    | (inr a, s') => k a s'
    end.

Definition throw {A : Type} (e : Thrown) : M A := fun s => (inl e, s).

(** [try { m } catch (error) { handler }]. *)
Definition tryCatch {A : Type} (m : M A) (handler : Thrown -> M A) : M A :=
  fun s =>
    match m s with
    | (inl e, s') => handler e s'
    | (inr a, s') => (inr a, s')
    end.

Definition get : M S := fun s => (inr s, s).

Definition gets {A : Type} (proj : S -> A) : M A := fun s => (inr (proj s), s).

Definition modify (change : S -> S) : M unit := fun s => (inr tt, change s).

Definition when (b : bool) (m : M unit) : M unit := if b then m else ret tt.

End Monad.

Arguments ret {S A} a _.
Arguments bind {S A B} m k _.
Arguments throw {S A} e _.
Arguments tryCatch {S A} m handler _.
Arguments get {S} _.
Arguments gets {S A} proj _.
Arguments modify {S} change _.
Arguments when {S} b m _.

End Eff.

Import Eff.

Declare Scope eff_scope.
Delimit Scope eff_scope with eff.
Notation "x <- c ;; k" := (bind c (fun x => k))
  (at level 61, c at next level, right associativity) : eff_scope.
Notation "c ;; k" := (bind c (fun _ => k))
  (at level 61, right associativity) : eff_scope.
Open Scope eff_scope.

(** ** The collaborators of XtbFile *)

(** xmldom's [new DOMParser().parseFromString(xmlString, 'text/xml')],
    an external library.  The result is [None] when xmldom returns
    [undefined], as it does for a text it takes for no source (the
    empty text). *)
Class XmlTreeProvider : Type := {
  parseFromString : string -> option Document
}.

(** The companion dialect.  xmb-file.ts and the trans-unit classes are
    not among the sources; XtbFile uses this much of them.  [newXmbFile]
    is the constructor [new XmbFile(xmlContent, path, encoding)], [None]
    when it throws.  The master is only read. *)
Class Companion : Type := {
  AbstractTransUnit : Type;
  XmbFile : Type;
  newXmbFile : string -> string -> string -> option XmbFile;
  masterNumberOfTransUnits : XmbFile -> nat;
  masterSourceLanguage : XmbFile -> option string;
  masterTransUnitWithId : XmbFile -> string -> option AbstractTransUnit
}.

(** [optionalMaster?: { xmlContent, path, encoding }]. *)
Record OptionalMaster : Type := mkOptionalMaster {
  xmlContent : string;
  path : string;
  encoding : string
}.

Section XtbFile.

Context {provider : XmlTreeProvider} {companion : Companion}.

(** [new XtbTransUnit(_element, _id, _translationMessagesFile,
    _sourceTransUnitFromMaster)]; the back reference to the file is
    left out.  [_element] records the translation element as it is when
    the unit is made.  The methods embedded here never change the tag,
    the attributes or the place of a translation element; they change
    the first translationbundle element, so when that element lies
    inside a translation element the node in the document comes to
    differ from this record in its descendants.  What is stated below
    of a unit's element is stated of the element as it is when the unit
    is made, or of its id attribute, which no method changes. *)
Record XtbTransUnit : Type := mkXtbTransUnit {
  _element : Node;
  _id : string;
  _sourceTransUnitFromMaster : option AbstractTransUnit
}.

(** Modelled from the spec: xtb-trans-unit.ts is not among the sources;
    a unit's target content is the content fragment of its translation
    element. *)
Definition targetContent (tu : XtbTransUnit) : string :=
  DOMUtilities.getXMLContent (_element tu).

(** The fields of the object: those of AbstractTranslationMessagesFile
    and [_masterFile].  [transUnits] is [None] while it is null, that
    is until the units are initialised.  [_parsedDocument] is the
    document of an object a caller holds: when the parser has returned
    undefined the constructor throws before it returns, and the field
    is shown empty until then. *)
Record XtbFile : Type := mkXtbFile {
  _filename : string;
  _encoding : string;
  _parsedDocument : Document;
  transUnits : option (list XtbTransUnit);
  _warnings : list string;
  _numberOfTransUnitsWithMissingId : nat;
  _numberOfUntranslatedTransUnits : nat;
  _numberOfReviewedTransUnits : nat;
  targetPraefix : option string;
  targetSuffix : option string;
  _masterFile : option XmbFile
}.

(** The state deriver of the trans units (AbstractTransUnit.targetState
    on an XtbTransUnit), which is not among the sources: whether a unit
    counts as untranslated, and whether as reviewed.  The deriver reads
    the unit's element as it is in the document at the time of the
    call, so it is given the parsed document next to the unit. *)
Class StateDeriver : Type := {
  countsAsUntranslated : Document -> XtbTransUnit -> bool;
  countsAsReviewed : Document -> XtbTransUnit -> bool
}.

Context {deriver : StateDeriver}.

(** The unit handed to [importNewTransUnit]: an [ITransUnit] of another
    file, with the methods of AbstractTransUnit the import calls. *)
Record ITransUnit : Type := mkITransUnit {
  id : string;
  sourceContent : string;
  isICUMessage : string -> bool;
  cloneWithSourceAsTarget : bool -> bool -> XtbFile -> AbstractTransUnit
}.

(** *** Field assignments *)

Definition setParsed (p e : string) (d : Document) (f : XtbFile) : XtbFile :=
  mkXtbFile p e d (transUnits f) (_warnings f)
    (_numberOfTransUnitsWithMissingId f) (_numberOfUntranslatedTransUnits f)
    (_numberOfReviewedTransUnits f) (targetPraefix f) (targetSuffix f)
    (_masterFile f).

Definition setParsedDocument (d : Document) (f : XtbFile) : XtbFile :=
  setParsed (_filename f) (_encoding f) d f.

Definition setTransUnits (l : option (list XtbTransUnit)) (f : XtbFile) : XtbFile :=
  mkXtbFile (_filename f) (_encoding f) (_parsedDocument f) l (_warnings f)
    (_numberOfTransUnitsWithMissingId f) (_numberOfUntranslatedTransUnits f)
    (_numberOfReviewedTransUnits f) (targetPraefix f) (targetSuffix f)
    (_masterFile f).

Definition setWarnings (w : list string) (f : XtbFile) : XtbFile :=
  mkXtbFile (_filename f) (_encoding f) (_parsedDocument f) (transUnits f) w
    (_numberOfTransUnitsWithMissingId f) (_numberOfUntranslatedTransUnits f)
    (_numberOfReviewedTransUnits f) (targetPraefix f) (targetSuffix f)
    (_masterFile f).

Definition setNumbers (missing untranslated reviewed : nat) (f : XtbFile) : XtbFile :=
  mkXtbFile (_filename f) (_encoding f) (_parsedDocument f) (transUnits f)
    (_warnings f) missing untranslated reviewed (targetPraefix f)
    (targetSuffix f) (_masterFile f).

Definition setDecoration (praefix suffix : option string) (f : XtbFile) : XtbFile :=
  mkXtbFile (_filename f) (_encoding f) (_parsedDocument f) (transUnits f)
    (_warnings f) (_numberOfTransUnitsWithMissingId f)
    (_numberOfUntranslatedTransUnits f) (_numberOfReviewedTransUnits f)
    praefix suffix (_masterFile f).

Definition setMasterFile (m : option XmbFile) (f : XtbFile) : XtbFile :=
  mkXtbFile (_filename f) (_encoding f) (_parsedDocument f) (transUnits f)
    (_warnings f) (_numberOfTransUnitsWithMissingId f)
    (_numberOfUntranslatedTransUnits f) (_numberOfReviewedTransUnits f)
    (targetPraefix f) (targetSuffix f) m.

(** [this._warnings.push(w)]. *)
Definition pushWarning (w : string) : M XtbFile unit :=
  modify (fun f => setWarnings (_warnings f ++ [w])%list f).

(** A read of [this.transUnits] that is then dereferenced: a TypeError
    while the field is null. *)
Definition theTransUnits : M XtbFile (list XtbTransUnit) :=
  f <- get ;;
  match transUnits f with
  | Some l => ret l
  | None => throw "TypeError: Cannot read property of null"
  end.

(** [this.transUnits.push(tu)]. *)
Definition pushTransUnit (tu : XtbTransUnit) : M XtbFile unit :=
  l <- theTransUnits ;;
  modify (setTransUnits (Some (l ++ [tu])%list)).

(** *** AbstractTranslationMessagesFile

    The base class is not among the sources.  The methods XtbFile
    inherits and calls are embedded here as far as XtbFile relies on
    them. *)

(** The tree of a text, with no node when the parser returns
    undefined. *)
Definition documentOf (xmlString : string) : Document :=
  match parseFromString xmlString with
  | Some doc => doc
  | None => []
  end.

(** Modelled from the spec: the base class's [parseContent], which
    keeps the file name and encoding and has the tree provider parse
    the text.  The result tells what [this._parsedDocument] has been
    set to: a document, or undefined. *)
Definition parseContent (xmlString filePath fileEncoding : string)
  : M XtbFile (option Document) :=
  modify (setParsed filePath fileEncoding (documentOf xmlString)) ;;
  ret (parseFromString xmlString).

(** Modelled from the spec: the base class's [countNumbers], the derived
    counters recomputed from the live unit list; a unit's id is missing
    when it is empty.  It is called only once the unit list exists. *)
Definition countNumbers : M XtbFile unit :=
  modify (fun f =>
    let tus := match transUnits f with Some l => l | None => [] end in
    setNumbers (length (filter (fun tu => String.eqb (_id tu) "") tus))
               (length (filter (countsAsUntranslated (_parsedDocument f)) tus))
               (length (filter (countsAsReviewed (_parsedDocument f)) tus))
               f).

(** *** XtbFile.initializeTransUnits *)

Definition missingIdWarning (filename : string) : string :=
  "oops, msg without " ++ dquote ++ "id" ++ dquote
    ++ " found in master, please check file " ++ filename.

(** The body of the [for] loop, over the items of [transUnitsInFile]
    from index [i] on.  [!id] holds of the empty string. *)
Fixpoint forEachTranslation (transUnitsInFile : list Node) : M XtbFile unit :=
  match transUnitsInFile with
  | [] => ret tt
  | msg :: rest =>
      let id := Dom.getAttribute msg "id" in
      when (String.eqb id "")
           (filename <- gets _filename ;;
            pushWarning (missingIdWarning filename)) ;;
      masterUnit <- gets (fun f =>
                      match _masterFile f with
                      | Some master => masterTransUnitWithId master id
                      | None => None
                      end) ;;
      pushTransUnit (mkXtbTransUnit msg id masterUnit) ;;
      forEachTranslation rest
  end.

Definition initializeTransUnits : M XtbFile unit :=
  modify (setTransUnits (Some [])) ;;
  doc <- gets _parsedDocument ;;
  forEachTranslation (Dom.getElementsByTagName doc "translation").

(** Modelled from the spec: the base class's [lazyInitializeTransUnits];
    the units are extracted and counted on first use. *)
Definition lazyInitializeTransUnits : M XtbFile unit :=
  f <- get ;;
  match transUnits f with
  | None => initializeTransUnits ;; countNumbers
  | Some _ => ret tt
  end.

(** Modelled from the spec: the base class's readers, each of which
    initialises the units first. *)
Definition numberOfTransUnits : M XtbFile nat :=
  lazyInitializeTransUnits ;;
  l <- theTransUnits ;;
  ret (length l).

Definition numberOfTransUnitsWithMissingId : M XtbFile nat :=
  lazyInitializeTransUnits ;;
  gets _numberOfTransUnitsWithMissingId.

Definition numberOfUntranslatedTransUnits : M XtbFile nat :=
  lazyInitializeTransUnits ;;
  gets _numberOfUntranslatedTransUnits.

Definition numberOfReviewedTransUnits : M XtbFile nat :=
  lazyInitializeTransUnits ;;
  gets _numberOfReviewedTransUnits.

Definition warnings : M XtbFile (list string) :=
  lazyInitializeTransUnits ;;
  gets _warnings.

Definition transUnitWithId (unitId : string) : M XtbFile (option XtbTransUnit) :=
  lazyInitializeTransUnits ;;
  l <- theTransUnits ;;
  ret (find (fun tu => String.eqb (_id tu) unitId) l).

(** Modelled from the spec: the configured decoration of a new target,
    empty unless set. *)
Definition setNewTransUnitTargetPraefix (praefix : string) : M XtbFile unit :=
  modify (fun f => setDecoration (Some praefix) (targetSuffix f) f).

Definition setNewTransUnitTargetSuffix (suffix : string) : M XtbFile unit :=
  modify (fun f => setDecoration (targetPraefix f) (Some suffix) f).

Definition getNewTransUnitTargetPraefix : M XtbFile string :=
  gets (fun f => match targetPraefix f with Some p => p | None => "" end).

Definition getNewTransUnitTargetSuffix : M XtbFile string :=
  gets (fun f => match targetSuffix f with Some s => s | None => "" end).

(** *** XtbFile.initializeFromContent and the constructor *)

Definition noXtbFileError (filePath : string) : Thrown :=
  "File " ++ dquote ++ filePath ++ dquote
    ++ " seems to be no xtb file (should contain a translationbundle element)".

Definition noXmbFileError (masterPath : string) : Thrown :=
  "File " ++ dquote ++ masterPath ++ dquote
    ++ " seems to be no xmb file. An xtb file needs xmb as master file.".

Definition masterMismatchWarning (numberInMaster myNumber : nat) : string :=
  showNumber numberInMaster ++ " trans units found in master, but this file has "
    ++ showNumber myNumber ++ ". Check if it is the correct master".

(** The [try] block.  What the XmbFile constructor throws is replaced
    by the [catch], so its message is not kept. *)
Definition attachMaster (optionalMaster : OptionalMaster) : M XtbFile unit :=
  match newXmbFile (xmlContent optionalMaster) (path optionalMaster)
                   (encoding optionalMaster) with
  | None => throw "Error thrown by new XmbFile"
  | Some master =>
      modify (setMasterFile (Some master)) ;;
      let numberInMaster := masterNumberOfTransUnits master in
      myNumber <- numberOfTransUnits ;;
      when (negb (Nat.eqb numberInMaster myNumber))
           (pushWarning (masterMismatchWarning numberInMaster myNumber))
  end.

(** What the engine throws at
    [this._parsedDocument.getElementsByTagName(...)] when the document
    is undefined; the wording is the engine's. *)
Definition undefinedDocumentError : Thrown :=
  "TypeError: Cannot read property 'getElementsByTagName' of undefined".

Definition initializeFromContent (xmlString filePath fileEncoding : string)
  (optionalMaster : option OptionalMaster) : M XtbFile unit :=
  parsed <- parseContent xmlString filePath fileEncoding ;;
  match parsed with
  | None => throw undefinedDocumentError
  | Some _ =>
      doc <- gets _parsedDocument ;;
      if negb (Nat.eqb (length (Dom.getElementsByTagName doc "translationbundle")) 1)
      then throw (noXtbFileError filePath)
      else
        match optionalMaster with
        | Some master =>
            tryCatch (attachMaster master)
                     (fun _ => throw (noXmbFileError (path master)))
        | None => ret tt
        end
  end.

(** The object after [super()], [this._warnings = []] and
    [this._numberOfTransUnitsWithMissingId = 0]; fields not yet
    assigned are shown empty. *)
Definition freshObject : XtbFile :=
  mkXtbFile "" "" [] None [] 0 0 0 None None None.

(** [new XtbFile(xmlString, path, encoding, optionalMaster)]: the object,
    or the error that leaves the caller without one. *)
Definition newXtbFile (xmlString filePath fileEncoding : string)
  (optionalMaster : option OptionalMaster) : Thrown + XtbFile :=
  match initializeFromContent xmlString filePath fileEncoding optionalMaster
          freshObject with
  | (inl e, _) => inl e
  | (inr _, f) => inr f
  end.

(** *** Language accessors *)

Definition sourceLanguage : M XtbFile (option string) :=
  f <- get ;;
  match _masterFile f with
  | Some master => ret (masterSourceLanguage master)
  | None => ret None
  end.

Definition setSourceLanguage (language : string) : M XtbFile unit :=
  ret tt.

Definition targetLanguage : M XtbFile (option string) :=
  doc <- gets _parsedDocument ;;
  match DOMUtilities.getFirstElementByTagName doc "translationbundle" with
  | Some translationbundleElem => ret (Some (Dom.getAttribute translationbundleElem "lang"))
  | None => ret None
  end.

(** The element found is changed in place, that is in the document. *)
Definition changeFirstElement (tagName : string) (change : Node -> Node)
  : M XtbFile unit :=
  modify (fun f =>
    match Dom.updateFirst tagName change (_parsedDocument f) with
    | Some doc' => setParsedDocument doc' f
    | None => f
    end).

Definition setTargetLanguage (language : string) : M XtbFile unit :=
  doc <- gets _parsedDocument ;;
  match DOMUtilities.getFirstElementByTagName doc "translationbundle" with
  | Some _ => changeFirstElement "translationbundle" (Dom.setAttribute "lang" language)
  | None => ret tt
  end.

(** *** XtbFile.importNewTransUnit *)

Definition duplicateIdError (unitId : string) : Thrown :=
  "tu with id " ++ unitId ++ " already exists in file, cannot import it".

(** The result is the new unit, or [None] for the [null] of the last
    branch. *)
Definition importNewTransUnit (transUnit : ITransUnit)
  (isDefaultLang copyContent : bool) : M XtbFile (option XtbTransUnit) :=
  existing <- transUnitWithId (id transUnit) ;;
  match existing with
  | Some _ => throw (duplicateIdError (id transUnit))
  | None =>
      this <- get ;;
      let newTu := cloneWithSourceAsTarget transUnit isDefaultLang copyContent this in
      match DOMUtilities.getFirstElementByTagName (_parsedDocument this)
              "translationbundle" with
      | Some _ =>
          let translationElement :=
            Dom.setAttribute "id" (id transUnit) (Dom.createElement "translation") in
          praefix <- getNewTransUnitTargetPraefix ;;
          suffix <- getNewTransUnitTargetSuffix ;;
          let newContent := sourceContent transUnit in
          let newContent :=
            if negb (isICUMessage transUnit newContent)
            then praefix ++ newContent ++ suffix
            else newContent in
          let translationElement :=
            DOMUtilities.replaceContentWithXMLContent translationElement newContent in
          let newTransUnit :=
            mkXtbTransUnit translationElement (id transUnit) (Some newTu) in
          changeFirstElement "translationbundle" (Dom.appendChild translationElement) ;;
          lazyInitializeTransUnits ;;
          pushTransUnit newTransUnit ;;
          countNumbers ;;
          ret (Some newTransUnit)
      | None => ret None
      end
  end.

(** ** What a caller observes, and the states a caller can reach *)

(** The result of a method call, value or error. *)
Definition observe {A : Type} (call : M XtbFile A) (f : XtbFile) : Thrown + A :=
  fst (call f).

(** The object after a method call. *)
Definition after {A : Type} (call : M XtbFile A) (f : XtbFile) : XtbFile :=
  snd (call f).

(** A translation element whose [id] reads as empty: the attribute is
    missing (or is the empty string). *)
Definition lacksId (msg : Node) : bool :=
  String.eqb (Dom.getAttribute msg "id") "".

(** The unit the loop of [initializeTransUnits] makes of one element. *)
Definition unitOfTranslation (master : option XmbFile) (msg : Node) : XtbTransUnit :=
  mkXtbTransUnit msg (Dom.getAttribute msg "id")
    match master with
    | Some m => masterTransUnitWithId m (Dom.getAttribute msg "id")
    | None => None
    end.

(** One warning for each element without id, in document order. *)
Definition missingIdWarnings (filename : string) (msgs : list Node) : list string :=
  map (fun _ => missingIdWarning filename) (filter lacksId msgs).

(** The translation elements of the input text. *)
Definition translationsOf (xmlString : string) : list Node :=
  Dom.getElementsByTagName (documentOf xmlString) "translation".

(** The number of root marker elements of the input text. *)
Definition bundlesOf (xmlString : string) : nat :=
  length (Dom.getElementsByTagName (documentOf xmlString) "translationbundle").

(** The document still has a translationbundle element. *)
Definition hasBundle (f : XtbFile) : Prop :=
  Dom.getElementsByTagName (_parsedDocument f) "translationbundle" <> [].

(** The public methods of XtbFile embedded above, as calls. *)
Inductive Call : Type :=
| CallWarnings
| CallNumberOfTransUnits
| CallNumberOfTransUnitsWithMissingId
| CallNumberOfUntranslatedTransUnits
| CallNumberOfReviewedTransUnits
| CallTransUnitWithId (unitId : string)
| CallSourceLanguage
| CallSetSourceLanguage (language : string)
| CallTargetLanguage
| CallSetTargetLanguage (language : string)
| CallSetNewTransUnitTargetPraefix (praefix : string)
| CallSetNewTransUnitTargetSuffix (suffix : string)
| CallImportNewTransUnit (transUnit : ITransUnit) (isDefaultLang copyContent : bool).

(** The object after a call, whether it returned or threw. *)
Definition perform (c : Call) (f : XtbFile) : XtbFile :=
  match c with
  | CallWarnings => after warnings f
  | CallNumberOfTransUnits => after numberOfTransUnits f
  | CallNumberOfTransUnitsWithMissingId => after numberOfTransUnitsWithMissingId f
  | CallNumberOfUntranslatedTransUnits => after numberOfUntranslatedTransUnits f
  | CallNumberOfReviewedTransUnits => after numberOfReviewedTransUnits f
  | CallTransUnitWithId unitId => after (transUnitWithId unitId) f
  | CallSourceLanguage => after sourceLanguage f
  | CallSetSourceLanguage language => after (setSourceLanguage language) f
  | CallTargetLanguage => after targetLanguage f
  | CallSetTargetLanguage language => after (setTargetLanguage language) f
  | CallSetNewTransUnitTargetPraefix praefix => after (setNewTransUnitTargetPraefix praefix) f
  | CallSetNewTransUnitTargetSuffix suffix => after (setNewTransUnitTargetSuffix suffix) f
  | CallImportNewTransUnit transUnit isDefaultLang copyContent =>
      after (importNewTransUnit transUnit isDefaultLang copyContent) f
  end.

(** A successfully constructed document, after any number of calls. *)
Inductive Reachable : XtbFile -> Prop :=
| reachable_new : forall xmlString filePath fileEncoding optionalMaster f,
    newXtbFile xmlString filePath fileEncoding optionalMaster = inr f ->
    Reachable f
| reachable_call : forall f c,
    Reachable f -> Reachable (perform c f).

(** ** The objects the methods lead to

    Closed forms of the object after initialisation, construction and
    import, used to state what the methods do. *)

(** The object once its units are initialised and counted. *)
Definition initialised (f : XtbFile) : XtbFile :=
  let msgs := Dom.getElementsByTagName (_parsedDocument f) "translation" in
  let tus := map (unitOfTranslation (_masterFile f)) msgs in
  setNumbers (length (filter (fun tu => String.eqb (_id tu) "") tus))
             (length (filter (countsAsUntranslated (_parsedDocument f)) tus))
             (length (filter (countsAsReviewed (_parsedDocument f)) tus))
    (setWarnings (_warnings f ++ missingIdWarnings (_filename f) msgs)%list
       (setTransUnits (Some tus) f)).

(** The object a reader sees: initialised if it was not yet. *)
Definition forced (f : XtbFile) : XtbFile :=
  match transUnits f with Some _ => f | None => initialised f end.

(** The object built when the master is accepted: the master is
    attached, the units are initialised for the count, and the
    mismatch warning comes last. *)
Definition withMaster (xmlString filePath fileEncoding : string) (m : XmbFile)
  : XtbFile :=
  let f0 := initialised
              (setMasterFile (Some m)
                 (setParsed filePath fileEncoding (documentOf xmlString)
                    freshObject)) in
  let numberInMaster := masterNumberOfTransUnits m in
  let myNumber := length (translationsOf xmlString) in
  if Nat.eqb numberInMaster myNumber then f0
  else setWarnings
         (_warnings f0 ++ [masterMismatchWarning numberInMaster myNumber])%list f0.

(** The content the import writes into the new translation element. *)
Definition newContentOf (f : XtbFile) (transUnit : ITransUnit) : string :=
  let praefix := match targetPraefix f with Some p => p | None => "" end in
  let suffix := match targetSuffix f with Some s => s | None => "" end in
  if isICUMessage transUnit (sourceContent transUnit)
  then sourceContent transUnit
  else praefix ++ sourceContent transUnit ++ suffix.

(** The unit the import makes. *)
Definition importedUnit (f : XtbFile) (transUnit : ITransUnit)
  (isDefaultLang copyContent : bool) : XtbTransUnit :=
  mkXtbTransUnit
    (Element "translation" [("id", id transUnit)] [Text (newContentOf f transUnit)])
    (id transUnit)
    (Some (cloneWithSourceAsTarget transUnit isDefaultLang copyContent (forced f))).

(** The optional master, when given, is accepted by the XmbFile
    constructor. *)
Definition masterAccepted (optionalMaster : option OptionalMaster) : Prop :=
  match optionalMaster with
  | None => True
  | Some master =>
      newXmbFile (xmlContent master) (path master) (encoding master) <> None
  end.

(** ** The remaining methods of XtbFile *)

(** The constants of ../api, as the doc comments of [i18nFormat] and
    [fileType] give them. *)
Definition FORMAT_XTB : string := "xtb".

Definition FILETYPE_XTB : string := "XTB".

Definition i18nFormat : M XtbFile string := ret FORMAT_XTB.

Definition fileType : M XtbFile string := ret FILETYPE_XTB.

Definition notTranslatableError (filename : string) : Thrown :=
  "File " ++ dquote ++ filename ++ dquote
    ++ ", xtb files are not translatable, they are already translations".

(** The result type stands for the ITranslationMessagesFile that is
    never returned. *)
Definition createTranslationFileForLang (lang filename : string)
  (isDefaultLang copyContent : bool) : M XtbFile XtbFile :=
  throw (notTranslatableError filename).

(** ** Notions used to state further properties *)

(** The ids of the units every reader sees, in the order of the list. *)
Definition unitIds (f : XtbFile) : list string :=
  match transUnits (forced f) with
  | Some l => map _id l
  | None => []
  end.

(** The ids the translation elements of a document read, in document
    order. *)
Definition translationIds (doc : Document) : list string :=
  map (fun msg => Dom.getAttribute msg "id")
      (Dom.getElementsByTagName doc "translation").

(** A change of an element that touches its attributes only. *)
Definition keepsChildren (change : Node -> Node) : Prop :=
  forall t attrs cs, exists attrs', change (Element t attrs cs) = Element t attrs' cs.

(** The last character of a string. *)
Fixpoint lastAscii (s : string) : option ascii :=
  match s with
  | EmptyString => None
  | String c rest =>
      match lastAscii rest with
      | Some d => Some d
      | None => Some c
      end
  end.

(** The missing-id counter holds the count over the unit list, once
    there is one. *)
Definition countersCurrent (f : XtbFile) : Prop :=
  forall l,
    transUnits f = Some l ->
    _numberOfTransUnitsWithMissingId f
      = length (filter (fun tu => String.eqb (_id tu) "") l).

End XtbFile.

(** ** An executable implementation of the collaborators

    Used to run the class on concrete file contents.  The parser reads
    the XML subset of elements, quoted attributes and character
    data, which is all the examples contain. *)

Module Example.

Definition isNameChar (c : ascii) : bool :=
  negb (Ascii.eqb c " " || Ascii.eqb c ">" || Ascii.eqb c "/" || Ascii.eqb c "="
        || Ascii.eqb c "<")%char.

(** The longest prefix of characters satisfying [keep], and the rest. *)
Fixpoint span (keep : ascii -> bool) (s : string) : string * string :=
  match s with
  | EmptyString => (EmptyString, EmptyString)
  | String c rest =>
      if keep c
      then let (taken, left) := span keep rest in (String c taken, left)
      else (EmptyString, s)
  end.

Definition dropOne (s : string) : string :=
  match s with
  | EmptyString => EmptyString
  | String _ rest => rest
  end.

Definition skipSpaces (s : string) : string :=
  snd (span (fun c => Ascii.eqb c " "%char) s).

(** Attributes [name='value'] (in single or double quotes) up to the
    end of the start tag. *)
Fixpoint parseAttributes (fuel : nat) (s : string)
  : list (string * string) * string :=
  match fuel with
  | 0 => ([], s)
  | S fuel' =>
      let s := skipSpaces s in
      match span isNameChar s with
      | (EmptyString, _) => ([], s)
      | (name, afterName) =>
          match dropOne afterName with
          | EmptyString => ([], EmptyString)
          | String quote afterQuote =>
              let (value, afterValue) :=
                span (fun c => negb (Ascii.eqb c quote)) afterQuote in
              let (more, left) := parseAttributes fuel' (dropOne afterValue) in
              ((name, value) :: more, left)
          end
      end
  end.

(** The nodes up to the end tag of the enclosing element (which is
    consumed) or to the end of the text. *)
Fixpoint parseNodes (fuel : nat) (s : string) : list Node * string :=
  match fuel with
  | 0 => ([], s)
  | S fuel' =>
      match s with
      | EmptyString => ([], EmptyString)
      | String c rest =>
          if Ascii.eqb c "<"%char then
            match rest with
            | String c' rest' =>
                if Ascii.eqb c' "/"%char
                then ([], dropOne (snd (span (fun x => negb (Ascii.eqb x ">"%char)) rest')))
                else
                  let (name, afterName) := span isNameChar rest in
                  let (attrs, afterAttrs) := parseAttributes fuel' afterName in
                  match afterAttrs with
                  | String "/"%char afterSlash =>
                      let (siblings, left) := parseNodes fuel' (dropOne afterSlash) in
                      (Element name attrs [] :: siblings, left)
                  | _ =>
                      let (children, afterEnd) := parseNodes fuel' (dropOne afterAttrs) in
                      let (siblings, left) := parseNodes fuel' afterEnd in
                      (Element name attrs children :: siblings, left)
                  end
            | EmptyString => ([], EmptyString)
            end
          else
            let (chars, afterText) := span (fun x => negb (Ascii.eqb x "<"%char)) s in
            let (siblings, left) := parseNodes fuel' afterText in
            (Text chars :: siblings, left)
      end
  end.

Definition parse (xmlString : string) : Document :=
  fst (parseNodes (S (String.length xmlString)) xmlString).

(** xmldom returns undefined for the empty text and a document for
    every other text. *)
#[export] Instance provider : XmlTreeProvider := {|
  parseFromString := fun xmlString =>
    if String.eqb xmlString "" then None else Some (parse xmlString)
|}.

(** The pieces of [s] between the occurrences of [sep]. *)
Fixpoint split (sep : ascii) (s : string) : list string :=
  match s with
  | EmptyString => [EmptyString]
  | String c rest =>
      if Ascii.eqb c sep then EmptyString :: split sep rest
      else
        match split sep rest with
        | piece :: pieces => String c piece :: pieces
        | [] => [String c EmptyString]
        end
  end.

Record Xmb : Type := mkXmb {
  xmbDocument : Document;
  xmbFilename : string
}.

(** Modelled from the spec: xmb-file.ts is not among the sources.  An
    xmb document needs exactly one root marker element (messagebundle),
    its units are the msg elements, and its source language is guessed
    from a file name of the form name.lang.xmb. *)
#[export] Instance companion : Companion := {|
  AbstractTransUnit := Node;
  XmbFile := Xmb;
  newXmbFile := fun content filePath _ =>
    let doc := parse content in
    if Nat.eqb (length (Dom.getElementsByTagName doc "messagebundle")) 1
    then Some (mkXmb doc filePath) else None;
  masterNumberOfTransUnits := fun master =>
    length (Dom.getElementsByTagName (xmbDocument master) "msg");
  masterSourceLanguage := fun master =>
    match rev (split "."%char (xmbFilename master)) with
    | extension :: lang :: _ :: _ =>
        if String.eqb extension "xmb" then Some lang else None
    | _ => None
    end;
  masterTransUnitWithId := fun master unitId =>
    find (fun msg => String.eqb (Dom.getAttribute msg "id") unitId)
         (Dom.getElementsByTagName (xmbDocument master) "msg")
|}.

(** Modelled from the spec: a unit is new (untranslated) while it has
    no master unit to compare with or its target is empty; this dialect
    has no notation for a reviewed unit. *)
#[export] Instance deriver : StateDeriver := {|
  countsAsUntranslated := fun _ tu =>
    match _sourceTransUnitFromMaster tu with
    | None => true
    | Some _ => String.eqb (targetContent tu) ""
    end;
  countsAsReviewed := fun _ _ => false
|}.

(** A msg element of an xmb file as the unit given to an import.  An
    ICU message starts with an opening brace. *)
Definition xmbUnit (msg : Node) : ITransUnit :=
  mkITransUnit (Dom.getAttribute msg "id") (DOMUtilities.getXMLContent msg)
    (fun content => match content with String "{"%char _ => true | _ => false end)
    (fun _ _ _ => msg).

(** *** Sample files *)

(** Two translation elements, the second without id. *)
Definition smallXtb : string :=
  "<translationbundle lang='en'><translation id='first'>My first I18N Application</translation><translation>no id here</translation></translationbundle>".

(** Eleven translation elements, the last without id. *)
Definition elevenXtb : string :=
  "<translationbundle lang='en'><translation id='1'>one</translation><translation id='2'>two</translation><translation id='3'>three</translation><translation id='4'>four</translation><translation id='5'>five</translation><translation id='6'>six</translation><translation id='7'>seven</translation><translation id='8'>eight</translation><translation id='9'>nine</translation><translation id='10'>ten</translation><translation>eleven</translation></translationbundle>".

(** No translationbundle element. *)
Definition noXtb : string := "<xliff><file/></xliff>".

(** An xmb master with one unit. *)
Definition masterDe : OptionalMaster :=
  mkOptionalMaster
    "<messagebundle><msg id='first'>Meine erste I18N-Anwendung</msg></messagebundle>"
    "ngExtractedMaster1.de.xmb" "UTF-8".

(** An xmb master with two units. *)
Definition masterOfTwo : OptionalMaster :=
  mkOptionalMaster
    "<messagebundle><msg id='first'>Meine erste I18N-Anwendung</msg><msg id='second'>Zweite</msg></messagebundle>"
    "ngExtractedMaster2.de.xmb" "UTF-8".

(** A master text that is no xmb file. *)
Definition notAMaster : OptionalMaster :=
  mkOptionalMaster "<xliff><file/></xliff>" "messages.xlf" "UTF-8".

(** The object a successful construction gives ([freshObject] stands
    in when it throws). *)
Definition constructed (xmlString filePath : string)
  (optionalMaster : option OptionalMaster) : XtbFile :=
  match newXtbFile xmlString filePath "UTF-8" optionalMaster with
  | inr f => f
  | inl _ => freshObject
  end.

Definition documentB : XtbFile := constructed smallXtb "messages.en.xtb" None.

(** [documentB] after [setNewTransUnitTargetPraefix('%%')]. *)
Definition documentBWithPraefix : XtbFile :=
  perform (CallSetNewTransUnitTargetPraefix "%%") documentB.

Definition unitToMerge : ITransUnit :=
  xmbUnit (Element "msg" [("id", "unittomerge")] [Text "Test for merging units"]).

Definition icuUnit : ITransUnit :=
  xmbUnit (Element "msg" [("id", "icu")]
             [Text "{VAR_PLURAL, plural, =0 {none} other {many} }"]).

Definition duplicateUnit : ITransUnit :=
  xmbUnit (Element "msg" [("id", "first")] [Text "Meine erste I18N-Anwendung"]).

End Example.

(** * Properties *)

(** ** The DOM tree *)

Section DomFacts.

(** Induction on a node with the hypothesis for every child. *)
Lemma Node_children_ind (P : Node -> Prop) :
  (forall d, P (Text d)) ->
  (forall t attrs cs, Forall P cs -> P (Element t attrs cs)) ->
  forall n, P n.
Proof.
  intros HText HElement.
  fix IH 1.
  intros [t attrs cs | d].
  - apply HElement. induction cs as [| c cs IHcs]; constructor.
    + apply IH.
    + exact IHcs.
  - apply HText.
Qed.

Lemma setAttribute_keepsTag name value : Dom.keepsTag (Dom.setAttribute name value).
Proof. intros t attrs cs. simpl. eauto. Qed.

Lemma appendChild_keepsTag child : Dom.keepsTag (Dom.appendChild child).
Proof. intros t attrs cs. simpl. eauto. Qed.

Lemma updateFirstInNode_found name change n :
  Dom.elementsOfNode name n <> [] ->
  exists n', Dom.updateFirstInNode name change n = Some n'.
Proof.
  induction n as [d | t attrs cs IH] using Node_children_ind; simpl.
  - congruence.
  - destruct (String.eqb t name); [eauto |].
    simpl. intros Hne.
    match goal with
    | |- context [match ?inChildren cs with _ => _ end] =>
        assert (Hcs : exists cs', inChildren cs = Some cs')
    end.
    { induction IH as [| c cs Hc _ IHcs]; simpl in *; [congruence |].
      destruct (Dom.elementsOfNode name c) eqn:Ec.
      - destruct (Dom.updateFirstInNode name change c); [eauto |].
        destruct (IHcs Hne) as [cs' ->]. eauto.
      - destruct Hc as [c' ->]; [congruence | eauto]. }
    destruct Hcs as [cs' ->]. eauto.
Qed.

Lemma updateFirst_found name change doc :
  Dom.getElementsByTagName doc name <> [] ->
  exists doc', Dom.updateFirst name change doc = Some doc'.
Proof.
  unfold Dom.getElementsByTagName.
  induction doc as [| n doc IH]; simpl; [congruence |].
  intros Hne.
  destruct (Dom.elementsOfNode name n) eqn:En.
  - destruct (Dom.updateFirstInNode name change n); [eauto |].
    destruct (IH Hne) as [doc' ->]. eauto.
  - destruct (updateFirstInNode_found name change n) as [n' ->]; [congruence | eauto].
Qed.

Lemma updateFirstInNode_keeps name change n n' :
  Dom.keepsTag change ->
  Dom.updateFirstInNode name change n = Some n' ->
  Dom.elementsOfNode name n' <> [].
Proof.
  intros Hkeep. revert n'.
  induction n as [d | t attrs cs IH] using Node_children_ind; simpl; intros n'.
  - congruence.
  - destruct (String.eqb t name) eqn:Et.
    + intros [= <-]. destruct (Hkeep t attrs cs) as (attrs' & cs' & ->).
      simpl. rewrite Et. simpl. congruence.
    + match goal with
      | |- context [match ?inChildren cs with _ => _ end] =>
          assert (Hcs : forall cs', inChildren cs = Some cs' ->
                                    flat_map (Dom.elementsOfNode name) cs' <> [])
      end.
      { induction IH as [| c cs Hc _ IHcs]; simpl; intros cs'; [congruence |].
        destruct (Dom.updateFirstInNode name change c) as [c' |].
        - intros [= <-]. simpl. specialize (Hc c' eq_refl).
          destruct (Dom.elementsOfNode name c'); simpl; congruence.
        - match goal with
          | |- context [match ?rec cs with _ => _ end] => destruct (rec cs) as [rest' |]
          end; [| congruence].
          intros [= <-]. simpl. specialize (IHcs rest' eq_refl).
          intros Happ. apply app_eq_nil in Happ. tauto. }
      match goal with
      | |- context [match ?inChildren cs with _ => _ end] =>
          destruct (inChildren cs) as [cs' |]
      end; [| congruence].
      intros [= <-]. simpl. rewrite Et. simpl. apply Hcs. reflexivity.
Qed.

Lemma updateFirst_keeps name change doc doc' :
  Dom.keepsTag change ->
  Dom.updateFirst name change doc = Some doc' ->
  Dom.getElementsByTagName doc' name <> [].
Proof.
  intros Hkeep. unfold Dom.getElementsByTagName. revert doc'.
  induction doc as [| n doc IH]; simpl; intros doc'; [congruence |].
  destruct (Dom.updateFirstInNode name change n) as [n' |] eqn:En.
  - intros [= <-]. simpl.
    pose proof (updateFirstInNode_keeps name change n n' Hkeep En) as Hn.
    destruct (Dom.elementsOfNode name n'); simpl; congruence.
  - destruct (Dom.updateFirst name change doc) as [rest' |]; [| congruence].
    intros [= <-]. simpl. specialize (IH rest' eq_refl).
    intros Happ. apply app_eq_nil in Happ. tauto.
Qed.

Lemma updateFirstInNode_appended name tag child n n' :
  In child (Dom.elementsOfNode tag child) ->
  Dom.updateFirstInNode name (Dom.appendChild child) n = Some n' ->
  In child (Dom.elementsOfNode tag n').
Proof.
  intros Hchild. revert n'.
  induction n as [d | t attrs cs IH] using Node_children_ind; simpl; intros n'.
  - congruence.
  - destruct (String.eqb t name) eqn:Et.
    + intros [= <-]. simpl. apply in_or_app. right.
      rewrite flat_map_app. apply in_or_app. right. simpl.
      now rewrite app_nil_r.
    + match goal with
      | |- context [match ?inChildren cs with _ => _ end] =>
          assert (Hcs : forall cs', inChildren cs = Some cs' ->
                                    In child (flat_map (Dom.elementsOfNode tag) cs'))
      end.
      { induction IH as [| c cs Hc _ IHcs]; simpl; intros cs'; [congruence |].
        destruct (Dom.updateFirstInNode name (Dom.appendChild child) c) as [c' |].
        - intros [= <-]. simpl. apply in_or_app. left. now apply Hc.
        - match goal with
          | |- context [match ?rec cs with _ => _ end] => destruct (rec cs) as [rest' |]
          end; [| congruence].
          intros [= <-]. simpl. apply in_or_app. right. now apply IHcs. }
      match goal with
      | |- context [match ?inChildren cs with _ => _ end] =>
          destruct (inChildren cs) as [cs' |]
      end; [| congruence].
      intros [= <-]. simpl. apply in_or_app. right. now apply Hcs.
Qed.

Lemma updateFirst_appended name tag child doc doc' :
  In child (Dom.elementsOfNode tag child) ->
  Dom.updateFirst name (Dom.appendChild child) doc = Some doc' ->
  In child (Dom.getElementsByTagName doc' tag).
Proof.
  intros Hchild. unfold Dom.getElementsByTagName. revert doc'.
  induction doc as [| n doc IH]; simpl; intros doc'; [congruence |].
  destruct (Dom.updateFirstInNode name (Dom.appendChild child) n) as [n' |] eqn:En.
  - intros [= <-]. simpl. apply in_or_app. left.
    eapply updateFirstInNode_appended; eassumption.
  - destruct (Dom.updateFirst name (Dom.appendChild child) doc) as [rest' |];
      [| congruence].
    intros [= <-]. simpl. apply in_or_app. right. now apply IH.
Qed.

Lemma getFirstElementByTagName_found doc name :
  Dom.getElementsByTagName doc name <> [] ->
  exists first, DOMUtilities.getFirstElementByTagName doc name = Some first.
Proof.
  unfold DOMUtilities.getFirstElementByTagName.
  destruct (Dom.getElementsByTagName doc name); [congruence | eauto].
Qed.

Lemma string_append_empty (s : string) : s ++ "" = s.
Proof. induction s as [| c s IH]; simpl; [reflexivity | now rewrite IH]. Qed.

End DomFacts.

(** ** What the methods do to the object *)

Section Runs.

Context {provider : XmlTreeProvider} {companion : Companion}
        {deriver : StateDeriver}.

Ltac run :=
  unfold observe, after, bind, ret, throw, gets, get, modify, when, tryCatch; simpl.

Lemma forEachTranslation_run (msgs : list Node) :
  forall f l,
    transUnits f = Some l ->
    forEachTranslation msgs f =
      (inr tt,
       setWarnings (_warnings f ++ missingIdWarnings (_filename f) msgs)%list
         (setTransUnits
            (Some (l ++ map (unitOfTranslation (_masterFile f)) msgs)%list) f)).
Proof.
  induction msgs as [| msg msgs IH]; intros f l Hl.
  - destruct f; simpl in *; subst.
    unfold ret, setWarnings, setTransUnits, missingIdWarnings; simpl.
    now rewrite !app_nil_r.
  - cbn [forEachTranslation].
    unfold bind at 1.
    destruct (String.eqb (Dom.getAttribute msg "id") "") eqn:Eid;
      unfold when, pushWarning, pushTransUnit, theTransUnits; run;
      rewrite Hl; simpl;
      (erewrite IH by (simpl; reflexivity));
      destruct f; simpl in *; subst;
      unfold setWarnings, setTransUnits, missingIdWarnings, lacksId,
        unitOfTranslation; simpl;
      rewrite Eid; simpl; rewrite <- !app_assoc; reflexivity.
Qed.

Lemma initializeTransUnits_run (f : XtbFile) :
  initializeTransUnits f =
    (inr tt,
     let msgs := Dom.getElementsByTagName (_parsedDocument f) "translation" in
     setWarnings (_warnings f ++ missingIdWarnings (_filename f) msgs)%list
       (setTransUnits (Some (map (unitOfTranslation (_masterFile f)) msgs)) f)).
Proof.
  unfold initializeTransUnits. run.
  erewrite forEachTranslation_run by (simpl; reflexivity).
  destruct f; reflexivity.
Qed.

Lemma lazyInitializeTransUnits_run (f : XtbFile) :
  lazyInitializeTransUnits f =
    (inr tt, match transUnits f with Some _ => f | None => initialised f end).
Proof.
  unfold lazyInitializeTransUnits. run.
  destruct (transUnits f) eqn:Etu; [reflexivity |].
  fold (bind initializeTransUnits (fun _ => countNumbers) f).
  unfold bind. rewrite initializeTransUnits_run.
  unfold countNumbers, modify, initialised. simpl. reflexivity.
Qed.

Lemma forced_units (f : XtbFile) :
  exists l, transUnits (forced f) = Some l.
Proof.
  unfold forced. destruct (transUnits f) eqn:E; [eauto |].
  unfold initialised. simpl. eauto.
Qed.

Lemma forced_idempotent (f : XtbFile) : forced (forced f) = forced f.
Proof.
  destruct (forced_units f) as [l Hl]. unfold forced at 1. now rewrite Hl.
Qed.

Lemma forced_document (f : XtbFile) : _parsedDocument (forced f) = _parsedDocument f.
Proof. unfold forced. destruct (transUnits f); reflexivity. Qed.

Lemma forced_decoration (f : XtbFile) :
  targetPraefix (forced f) = targetPraefix f /\ targetSuffix (forced f) = targetSuffix f.
Proof. unfold forced. destruct (transUnits f); split; reflexivity. Qed.

(** *** Readers *)

Lemma numberOfTransUnits_run (f : XtbFile) l :
  transUnits (forced f) = Some l ->
  numberOfTransUnits f = (inr (length l), forced f).
Proof.
  intros Hl. unfold numberOfTransUnits, bind.
  rewrite lazyInitializeTransUnits_run. fold (forced f).
  unfold theTransUnits. run. now rewrite Hl.
Qed.

Lemma transUnitWithId_run (f : XtbFile) l unitId :
  transUnits (forced f) = Some l ->
  transUnitWithId unitId f =
    (inr (find (fun tu => String.eqb (_id tu) unitId) l), forced f).
Proof.
  intros Hl. unfold transUnitWithId, bind.
  rewrite lazyInitializeTransUnits_run. fold (forced f).
  unfold theTransUnits. run. now rewrite Hl.
Qed.

Lemma warnings_run (f : XtbFile) :
  warnings f = (inr (_warnings (forced f)), forced f).
Proof.
  unfold warnings, bind. rewrite lazyInitializeTransUnits_run. reflexivity.
Qed.

Lemma numberOfTransUnitsWithMissingId_run (f : XtbFile) :
  numberOfTransUnitsWithMissingId f =
    (inr (_numberOfTransUnitsWithMissingId (forced f)), forced f).
Proof.
  unfold numberOfTransUnitsWithMissingId, bind.
  rewrite lazyInitializeTransUnits_run. reflexivity.
Qed.

Lemma numberOfUntranslatedTransUnits_run (f : XtbFile) :
  numberOfUntranslatedTransUnits f =
    (inr (_numberOfUntranslatedTransUnits (forced f)), forced f).
Proof.
  unfold numberOfUntranslatedTransUnits, bind.
  rewrite lazyInitializeTransUnits_run. reflexivity.
Qed.

Lemma numberOfReviewedTransUnits_run (f : XtbFile) :
  numberOfReviewedTransUnits f =
    (inr (_numberOfReviewedTransUnits (forced f)), forced f).
Proof.
  unfold numberOfReviewedTransUnits, bind.
  rewrite lazyInitializeTransUnits_run. reflexivity.
Qed.

(** *** The constructor *)

Lemma bundles_test xmlString filePath fileEncoding :
  length (Dom.getElementsByTagName
            (_parsedDocument (setParsed filePath fileEncoding
                                (documentOf xmlString) freshObject))
            "translationbundle") = bundlesOf xmlString.
Proof. reflexivity. Qed.

(** A text with a translationbundle element has a document. *)
Lemma one_bundle_parsed xmlString :
  bundlesOf xmlString = 1 -> exists doc, parseFromString xmlString = Some doc.
Proof.
  unfold bundlesOf, documentOf.
  destruct (parseFromString xmlString) as [doc |]; [eauto | discriminate].
Qed.

Lemma newXtbFile_noBundle xmlString filePath fileEncoding optionalMaster :
  bundlesOf xmlString <> 1 ->
  newXtbFile xmlString filePath fileEncoding optionalMaster =
    inl (match parseFromString xmlString with
         | Some _ => noXtbFileError filePath
         | None => undefinedDocumentError
         end).
Proof.
  intros Hn. unfold newXtbFile, initializeFromContent, parseContent. run.
  destruct (parseFromString xmlString) as [doc |]; [| reflexivity].
  run. fold (bundlesOf xmlString).
  apply Nat.eqb_neq in Hn. rewrite Hn. reflexivity.
Qed.

Lemma newXtbFile_noMaster xmlString filePath fileEncoding :
  bundlesOf xmlString = 1 ->
  newXtbFile xmlString filePath fileEncoding None =
    inr (setParsed filePath fileEncoding (documentOf xmlString) freshObject).
Proof.
  intros Hn. destruct (one_bundle_parsed xmlString Hn) as [doc Hdoc].
  unfold newXtbFile, initializeFromContent, parseContent. run.
  rewrite Hdoc. run.
  fold (bundlesOf xmlString). rewrite Hn. reflexivity.
Qed.

Lemma newXtbFile_badMaster xmlString filePath fileEncoding master :
  bundlesOf xmlString = 1 ->
  newXmbFile (xmlContent master) (path master) (encoding master) = None ->
  newXtbFile xmlString filePath fileEncoding (Some master) =
    inl (noXmbFileError (path master)).
Proof.
  intros Hn Hm. destruct (one_bundle_parsed xmlString Hn) as [doc Hdoc].
  unfold newXtbFile, initializeFromContent, parseContent. run.
  rewrite Hdoc. run.
  fold (bundlesOf xmlString). rewrite Hn. simpl.
  unfold attachMaster. rewrite Hm. reflexivity.
Qed.

Lemma newXtbFile_master xmlString filePath fileEncoding master m :
  bundlesOf xmlString = 1 ->
  newXmbFile (xmlContent master) (path master) (encoding master) = Some m ->
  newXtbFile xmlString filePath fileEncoding (Some master) =
    inr (withMaster xmlString filePath fileEncoding m).
Proof.
  intros Hn Hm. destruct (one_bundle_parsed xmlString Hn) as [doc Hdoc].
  unfold newXtbFile, initializeFromContent, parseContent. run.
  rewrite Hdoc. run.
  fold (bundlesOf xmlString). rewrite Hn. simpl.
  unfold attachMaster. rewrite Hm. unfold bind at 1. run.
  erewrite numberOfTransUnits_run by reflexivity.
  simpl. rewrite length_map. fold (translationsOf xmlString).
  unfold withMaster.
  destruct (Nat.eqb (masterNumberOfTransUnits m) (length (translationsOf xmlString)));
    reflexivity.
Qed.

(** *** importNewTransUnit *)

Lemma importNewTransUnit_duplicate f transUnit isDefaultLang copyContent l tu :
  transUnits (forced f) = Some l ->
  find (fun x => String.eqb (_id x) (id transUnit)) l = Some tu ->
  importNewTransUnit transUnit isDefaultLang copyContent f =
    (inl (duplicateIdError (id transUnit)), forced f).
Proof.
  intros Hl Hfind. unfold importNewTransUnit, bind.
  rewrite (transUnitWithId_run f l _ Hl), Hfind. reflexivity.
Qed.

Lemma importNewTransUnit_fresh f transUnit isDefaultLang copyContent l :
  transUnits (forced f) = Some l ->
  find (fun x => String.eqb (_id x) (id transUnit)) l = None ->
  hasBundle f ->
  let tu := importedUnit f transUnit isDefaultLang copyContent in
  exists doc',
    Dom.updateFirst "translationbundle" (Dom.appendChild (_element tu))
      (_parsedDocument f) = Some doc' /\
    importNewTransUnit transUnit isDefaultLang copyContent f =
      (inr (Some tu),
       after countNumbers
         (setTransUnits (Some (l ++ [tu])%list)
            (setParsedDocument doc' (forced f)))).
Proof.
  intros Hl Hfind Hbundle tu.
  destruct (updateFirst_found "translationbundle" (Dom.appendChild (_element tu))
              _ Hbundle) as [doc' Hdoc'].
  exists doc'. split; [exact Hdoc' |].
  unfold importNewTransUnit, bind at 1.
  rewrite (transUnitWithId_run f l _ Hl), Hfind.
  unfold bind at 1. unfold get at 1.
  destruct (getFirstElementByTagName_found _ _ Hbundle) as [first Hfirst].
  rewrite forced_document, Hfirst.
  destruct (forced_decoration f) as [Hp Hs].
  unfold getNewTransUnitTargetPraefix, getNewTransUnitTargetSuffix,
    changeFirstElement, pushTransUnit, theTransUnits.
  run. rewrite Hp, Hs, forced_document.
  subst tu. unfold importedUnit, newContentOf in *. simpl in Hdoc'.
  destruct (isICUMessage transUnit (sourceContent transUnit)); simpl;
    rewrite Hdoc'; simpl;
    rewrite lazyInitializeTransUnits_run; simpl;
    destruct (forced f); simpl in *; rewrite Hl; reflexivity.
Qed.

End Runs.

(** ** Construction *)

Section Construction.

Context {provider : XmlTreeProvider} {companion : Companion}
        {deriver : StateDeriver}.

Lemma newXtbFile_cases xmlString filePath fileEncoding optionalMaster :
  (bundlesOf xmlString <> 1 /\
   newXtbFile xmlString filePath fileEncoding optionalMaster =
     inl (match parseFromString xmlString with
          | Some _ => noXtbFileError filePath
          | None => undefinedDocumentError
          end)) \/
  (bundlesOf xmlString = 1 /\ optionalMaster = None /\
   newXtbFile xmlString filePath fileEncoding optionalMaster =
     inr (setParsed filePath fileEncoding (documentOf xmlString) freshObject)) \/
  (exists master,
     bundlesOf xmlString = 1 /\ optionalMaster = Some master /\
     newXmbFile (xmlContent master) (path master) (encoding master) = None /\
     newXtbFile xmlString filePath fileEncoding optionalMaster =
       inl (noXmbFileError (path master))) \/
  (exists master m,
     bundlesOf xmlString = 1 /\ optionalMaster = Some master /\
     newXmbFile (xmlContent master) (path master) (encoding master) = Some m /\
     newXtbFile xmlString filePath fileEncoding optionalMaster =
       inr (withMaster xmlString filePath fileEncoding m)).
Proof.
  destruct (Nat.eq_dec (bundlesOf xmlString) 1) as [Hb | Hb].
  - right. destruct optionalMaster as [master |].
    + right.
      destruct (newXmbFile (xmlContent master) (path master) (encoding master))
        as [m |] eqn:Hm.
      * right. exists master, m. auto using newXtbFile_master.
      * left. exists master. auto using newXtbFile_badMaster.
    + left. auto using newXtbFile_noMaster.
  - left. auto using newXtbFile_noBundle.
Qed.

Lemma withMaster_document xmlString filePath fileEncoding m :
  _parsedDocument (withMaster xmlString filePath fileEncoding m) =
    documentOf xmlString.
Proof.
  unfold withMaster.
  destruct (Nat.eqb (masterNumberOfTransUnits m) (length (translationsOf xmlString)));
    reflexivity.
Qed.

Lemma newXtbFile_document xmlString filePath fileEncoding optionalMaster f :
  newXtbFile xmlString filePath fileEncoding optionalMaster = inr f ->
  _parsedDocument f = documentOf xmlString /\ bundlesOf xmlString = 1.
Proof.
  intros Hnew.
  destruct (newXtbFile_cases xmlString filePath fileEncoding optionalMaster)
    as [[_ H] | [(Hb & _ & H) | [(master & _ & _ & _ & H) | (master & m & Hb & _ & _ & H)]]];
    rewrite H in Hnew; try discriminate; injection Hnew as <-; split; auto.
  apply withMaster_document.
Qed.

Lemma newXtbFile_masterFile xmlString filePath fileEncoding optionalMaster f :
  newXtbFile xmlString filePath fileEncoding optionalMaster = inr f ->
  match optionalMaster with
  | None => _masterFile f = None
  | Some master =>
      exists m,
        newXmbFile (xmlContent master) (path master) (encoding master) = Some m /\
        _masterFile f = Some m
  end.
Proof.
  intros Hnew.
  destruct (newXtbFile_cases xmlString filePath fileEncoding optionalMaster)
    as [[_ H] | [(Hb & -> & H) | [(master & _ & _ & _ & H) | (master & m & Hb & -> & Hm & H)]]];
    rewrite H in Hnew; try discriminate; injection Hnew as <-.
  - reflexivity.
  - exists m. split; [exact Hm |]. unfold withMaster.
    destruct (Nat.eqb (masterNumberOfTransUnits m) (length (translationsOf xmlString)));
      reflexivity.
Qed.

(** C2 (as the code has it): when the XmbFile constructor rejects the
    master text, the XtbFile constructor throws as well, so no primary
    document is constructed; for an input with its one translationbundle
    the error is the one that names the master file. *)
Theorem rejected_master_fails_construction
  xmlString filePath fileEncoding master :
  newXmbFile (xmlContent master) (path master) (encoding master) = None ->
  exists e,
    newXtbFile xmlString filePath fileEncoding (Some master) = inl e /\
    (bundlesOf xmlString = 1 -> e = noXmbFileError (path master)).
Proof.
  intros Hm.
  destruct (Nat.eq_dec (bundlesOf xmlString) 1) as [Hb | Hb].
  - exists (noXmbFileError (path master)). split; [| reflexivity].
    now apply newXtbFile_badMaster.
  - eexists. split; [now apply newXtbFile_noBundle | contradiction].
Qed.

(** C5 (as the code has it): construction throws if and only if the
    parsed tree does not hold exactly one translationbundle element, or
    a master is given and the XmbFile constructor rejects it. *)
Theorem construction_fails_iff
  xmlString filePath fileEncoding optionalMaster :
  (exists e, newXtbFile xmlString filePath fileEncoding optionalMaster = inl e)
  <->
  (bundlesOf xmlString <> 1 \/
   exists master,
     optionalMaster = Some master /\
     newXmbFile (xmlContent master) (path master) (encoding master) = None).
Proof.
  destruct (newXtbFile_cases xmlString filePath fileEncoding optionalMaster)
    as [[Hb H] | [(Hb & Hom & H) | [(master & Hb & Hom & Hm & H) | (master & m & Hb & Hom & Hm & H)]]];
    rewrite H; split.
  - auto.
  - eauto.
  - intros [e He]. discriminate.
  - intros [Hne | (master & Hs & _)]; [contradiction | congruence].
  - eauto.
  - eauto.
  - intros [e He]. discriminate.
  - intros [Hne | (master' & Hs & Hm')]; [contradiction |].
    rewrite Hom in Hs. injection Hs as <-. congruence.
Qed.

End Construction.

(** ** Warnings and counters after construction *)

Section Warnings.

Context {provider : XmlTreeProvider} {companion : Companion}
        {deriver : StateDeriver}.

(** A missing-id warning starts with a letter, a mismatch warning with
    a digit of the master's count (or the blank after it). *)
Lemma missingIdWarning_not_mismatch filename a b :
  missingIdWarning filename <> masterMismatchWarning a b.
Proof.
  unfold missingIdWarning, masterMismatchWarning, showNumber.
  destruct (Nat.to_uint a); simpl; discriminate.
Qed.

Lemma missingIdWarnings_all filename msgs w :
  In w (missingIdWarnings filename msgs) -> w = missingIdWarning filename.
Proof.
  unfold missingIdWarnings. intros Hin. apply in_map_iff in Hin.
  destruct Hin as (msg & <- & _). reflexivity.
Qed.

Lemma missingIdWarnings_no_mismatch filename msgs a b :
  count_occ string_dec (missingIdWarnings filename msgs)
    (masterMismatchWarning a b) = 0.
Proof.
  apply count_occ_not_In. intros Hin.
  apply missingIdWarnings_all in Hin.
  symmetry in Hin. exact (missingIdWarning_not_mismatch _ _ _ Hin).
Qed.

Lemma missingIdWarnings_length filename msgs :
  length (missingIdWarnings filename msgs) = length (filter lacksId msgs).
Proof. unfold missingIdWarnings. apply length_map. Qed.

Lemma filter_missing_units master msgs :
  filter (fun tu => String.eqb (_id tu) "") (map (unitOfTranslation master) msgs)
  = map (unitOfTranslation master) (filter lacksId msgs).
Proof.
  induction msgs as [| msg msgs IH]; simpl; [reflexivity |].
  unfold lacksId at 1.
  destruct (String.eqb (Dom.getAttribute msg "id") ""); simpl; now rewrite IH.
Qed.

(** The warning list of a document built with an accepted master. *)
Lemma withMaster_warnings xmlString filePath fileEncoding m :
  let f := withMaster xmlString filePath fileEncoding m in
  let n := masterNumberOfTransUnits m in
  let k := length (translationsOf xmlString) in
  transUnits f <> None /\
  _warnings f =
    (missingIdWarnings filePath (translationsOf xmlString)
       ++ (if Nat.eqb n k then [] else [masterMismatchWarning n k]))%list.
Proof.
  unfold withMaster. simpl.
  destruct (Nat.eqb (masterNumberOfTransUnits m) (length (translationsOf xmlString)));
    simpl; split; try discriminate; try reflexivity.
  unfold translationsOf. now rewrite app_nil_r.
Qed.

Lemma observe_warnings_initialised (f : XtbFile) :
  transUnits f <> None -> observe warnings f = inr (_warnings f).
Proof.
  intros Hinit. unfold observe. rewrite warnings_run. unfold forced.
  destruct (transUnits f); [reflexivity | contradiction].
Qed.

Lemma withMaster_numberOfTransUnits xmlString filePath fileEncoding m :
  observe numberOfTransUnits (withMaster xmlString filePath fileEncoding m)
  = inr (length (translationsOf xmlString)).
Proof.
  destruct (withMaster_warnings xmlString filePath fileEncoding m) as [Hinit _].
  unfold observe.
  destruct (transUnits (withMaster xmlString filePath fileEncoding m)) as [l |] eqn:El;
    [| contradiction].
  rewrite (numberOfTransUnits_run _ l) by (unfold forced; now rewrite El).
  simpl. f_equal. revert El. unfold withMaster.
  destruct (Nat.eqb (masterNumberOfTransUnits m) (length (translationsOf xmlString)));
    simpl; intros [= <-]; apply length_map.
Qed.

Lemma string_append_assoc (a b c : string) : (a ++ b) ++ c = a ++ (b ++ c).
Proof. induction a as [| x a IH]; simpl; [reflexivity | now rewrite IH]. Qed.

(** The text of the mismatch warning holds both counts, in decimal. *)
Lemma masterMismatchWarning_names_counts numberInMaster myNumber :
  Includes (masterMismatchWarning numberInMaster myNumber) (showNumber numberInMaster) /\
  Includes (masterMismatchWarning numberInMaster myNumber) (showNumber myNumber) /\
  Includes (masterMismatchWarning numberInMaster myNumber)
    "Check if it is the correct master".
Proof.
  unfold masterMismatchWarning. repeat split.
  - exists "". eexists. reflexivity.
  - exists (showNumber numberInMaster ++ " trans units found in master, but this file has ").
    exists ". Check if it is the correct master".
    now rewrite string_append_assoc.
  - exists (showNumber numberInMaster
            ++ " trans units found in master, but this file has "
            ++ showNumber myNumber ++ ". "), "".
    rewrite !string_append_assoc. reflexivity.
Qed.

(** C3: with a master the XmbFile constructor accepts, construction
    succeeds; when the master's unit count differs from the document's,
    the warning list is the missing-id warnings followed by one warning
    naming both counts, so that warning occurs exactly once and nothing
    before it is a mismatch warning; when the counts are equal the list
    holds the missing-id warnings only and no mismatch warning.  The
    text of the mismatch warning holds the master's count and the
    document's count, each in decimal. *)
Theorem master_count_mismatch_warns_once
  xmlString filePath fileEncoding master m :
  bundlesOf xmlString = 1 ->
  newXmbFile (xmlContent master) (path master) (encoding master) = Some m ->
  let n := masterNumberOfTransUnits m in
  let k := length (translationsOf xmlString) in
  exists f ws,
    newXtbFile xmlString filePath fileEncoding (Some master) = inr f /\
    observe numberOfTransUnits f = inr k /\
    observe warnings f = inr ws /\
    ws = (missingIdWarnings filePath (translationsOf xmlString)
            ++ (if Nat.eqb n k then [] else [masterMismatchWarning n k]))%list /\
    (forall w a b,
        In w (missingIdWarnings filePath (translationsOf xmlString)) ->
        w <> masterMismatchWarning a b) /\
    count_occ string_dec ws (masterMismatchWarning n k)
      = (if Nat.eqb n k then 0 else 1) /\
    Includes (masterMismatchWarning n k) (showNumber n) /\
    Includes (masterMismatchWarning n k) (showNumber k) /\
    Includes (masterMismatchWarning n k) "Check if it is the correct master".
Proof.
  intros Hb Hm n k.
  destruct (withMaster_warnings xmlString filePath fileEncoding m) as [Hinit Hws].
  exists (withMaster xmlString filePath fileEncoding m), (_warnings (withMaster xmlString filePath fileEncoding m)).
  split; [now apply newXtbFile_master |].
  split; [apply withMaster_numberOfTransUnits |].
  split; [now apply observe_warnings_initialised |].
  split; [exact Hws |].
  split.
  { intros w a b Hin Heq. apply missingIdWarnings_all in Hin. subst w.
    exact (missingIdWarning_not_mismatch _ _ _ Heq). }
  split; [| apply masterMismatchWarning_names_counts].
  rewrite Hws. fold n k. rewrite count_occ_app, missingIdWarnings_no_mismatch.
  destruct (Nat.eqb n k); simpl; [reflexivity |].
  destruct (string_dec (masterMismatchWarning n k) (masterMismatchWarning n k));
    [reflexivity | contradiction].
Qed.

(** C10: when the master's unit count differs from the document's, the
    warning list is the parse-time missing-id warnings, one for each
    translation element without id, followed by the mismatch warning:
    every missing-id warning stands before the mismatch warning. *)
Theorem missing_id_warnings_precede_mismatch
  xmlString filePath fileEncoding master m :
  bundlesOf xmlString = 1 ->
  newXmbFile (xmlContent master) (path master) (encoding master) = Some m ->
  masterNumberOfTransUnits m <> length (translationsOf xmlString) ->
  let mismatch :=
    masterMismatchWarning (masterNumberOfTransUnits m)
      (length (translationsOf xmlString)) in
  exists f ws,
    newXtbFile xmlString filePath fileEncoding (Some master) = inr f /\
    observe warnings f = inr ws /\
    ws = (missingIdWarnings filePath (translationsOf xmlString) ++ [mismatch])%list /\
    length ws = S (length (filter lacksId (translationsOf xmlString))) /\
    (forall i j,
        nth_error ws i = Some (missingIdWarning filePath) ->
        nth_error ws j = Some mismatch ->
        i < j).
Proof.
  intros Hb Hm Hne mismatch.
  destruct (withMaster_warnings xmlString filePath fileEncoding m) as [Hinit Hws].
  apply Nat.eqb_neq in Hne. rewrite Hne in Hws. fold mismatch in Hws.
  exists (withMaster xmlString filePath fileEncoding m),
         (_warnings (withMaster xmlString filePath fileEncoding m)).
  split; [now apply newXtbFile_master |].
  split; [now apply observe_warnings_initialised |].
  split; [exact Hws |].
  rewrite Hws. split.
  { rewrite length_app, missingIdWarnings_length. simpl. lia. }
  set (W := missingIdWarnings filePath (translationsOf xmlString)).
  intros i j Hi Hj.
  assert (Hi' : i < length W).
  { destruct (Nat.lt_ge_cases i (length W)) as [Hlt | Hge]; [exact Hlt |].
    rewrite nth_error_app2 in Hi by exact Hge.
    destruct (i - length W) as [| [| r]]; simpl in Hi; try discriminate.
    injection Hi as Hi. symmetry in Hi.
    exfalso. exact (missingIdWarning_not_mismatch _ _ _ Hi). }
  destruct (Nat.lt_ge_cases j (length W)) as [Hlt | Hge]; [| lia].
  rewrite nth_error_app1 in Hj by exact Hlt.
  apply nth_error_In, missingIdWarnings_all in Hj.
  exfalso. symmetry in Hj. exact (missingIdWarning_not_mismatch _ _ _ Hj).
Qed.

End Warnings.

(** ** Counting units, and the language accessors *)

Section Counting.

Context {provider : XmlTreeProvider} {companion : Companion}
        {deriver : StateDeriver}.

Lemma missingIdWarning_includes filename :
  Includes (missingIdWarning filename) ("without " ++ dquote ++ "id" ++ dquote).
Proof.
  exists "oops, msg ", (" found in master, please check file " ++ filename).
  reflexivity.
Qed.

(** What the readers answer on a newly constructed document. *)
Lemma constructed_readers xmlString filePath fileEncoding optionalMaster :
  bundlesOf xmlString = 1 ->
  masterAccepted optionalMaster ->
  exists f,
    newXtbFile xmlString filePath fileEncoding optionalMaster = inr f /\
    observe numberOfTransUnits f = inr (length (translationsOf xmlString)) /\
    observe numberOfTransUnitsWithMissingId f
      = inr (length (filter lacksId (translationsOf xmlString))) /\
    exists ws,
      observe warnings f = inr ws /\
      incl (missingIdWarnings filePath (translationsOf xmlString)) ws.
Proof.
  intros Hb Hacc.
  destruct optionalMaster as [master |]; simpl in Hacc.
  - destruct (newXmbFile (xmlContent master) (path master) (encoding master))
      as [m |] eqn:Hm; [| contradiction].
    destruct (withMaster_warnings xmlString filePath fileEncoding m) as [Hinit Hws].
    exists (withMaster xmlString filePath fileEncoding m).
    split; [now apply newXtbFile_master |].
    split; [apply withMaster_numberOfTransUnits |].
    split.
    + unfold observe. rewrite numberOfTransUnitsWithMissingId_run.
      unfold forced, withMaster.
      destruct (Nat.eqb (masterNumberOfTransUnits m) (length (translationsOf xmlString)));
        simpl; rewrite filter_missing_units, length_map; reflexivity.
    + exists (_warnings (withMaster xmlString filePath fileEncoding m)).
      split; [now apply observe_warnings_initialised |].
      rewrite Hws. apply incl_appl, incl_refl.
  - exists (setParsed filePath fileEncoding (documentOf xmlString) freshObject).
    split; [now apply newXtbFile_noMaster |].
    split.
    { unfold observe. erewrite numberOfTransUnits_run by reflexivity.
      simpl. now rewrite length_map. }
    split.
    { unfold observe. rewrite numberOfTransUnitsWithMissingId_run. simpl.
      now rewrite filter_missing_units, length_map. }
    eexists. split.
    { unfold observe. rewrite warnings_run. reflexivity. }
    simpl. apply incl_refl.
Qed.

(** C8: a document parsed from a text with 11 translation elements, of
    which exactly one reads no id, is constructed without error; it
    counts 11 trans units (the one without id included) and 1 unit with
    missing id, and its warning list holds a warning that includes the
    text: without "id". *)
Theorem eleven_units_one_without_id
  xmlString filePath fileEncoding optionalMaster :
  bundlesOf xmlString = 1 ->
  masterAccepted optionalMaster ->
  length (translationsOf xmlString) = 11 ->
  length (filter lacksId (translationsOf xmlString)) = 1 ->
  exists f,
    newXtbFile xmlString filePath fileEncoding optionalMaster = inr f /\
    observe numberOfTransUnits f = inr 11 /\
    observe numberOfTransUnitsWithMissingId f = inr 1 /\
    exists ws w,
      observe warnings f = inr ws /\
      In w ws /\
      Includes w ("without " ++ dquote ++ "id" ++ dquote).
Proof.
  intros Hb Hacc Hall Hmissing.
  destruct (constructed_readers xmlString filePath fileEncoding optionalMaster
              Hb Hacc) as (f & Hnew & Hnum & Hnoid & ws & Hobs & Hincl).
  exists f. rewrite Hall in Hnum. rewrite Hmissing in Hnoid.
  repeat (split; [assumption |]).
  exists ws, (missingIdWarning filePath).
  split; [exact Hobs |]. split; [| apply missingIdWarning_includes].
  apply Hincl. unfold missingIdWarnings.
  destruct (filter lacksId (translationsOf xmlString)) as [| msg rest];
    [discriminate | left; reflexivity].
Qed.

(** C7: on a document with no attached master, [sourceLanguage()]
    returns null without an error and [setSourceLanguage(lang)] leaves
    the object as it is; on a document with an attached master,
    [sourceLanguage()] returns what the master's [sourceLanguage()]
    returns.  Neither call changes the object. *)
Theorem sourceLanguage_delegates_to_master (f : XtbFile) (language : string) :
  (_masterFile f = None ->
     sourceLanguage f = (inr None, f) /\
     setSourceLanguage language f = (inr tt, f)) /\
  (forall master,
     _masterFile f = Some master ->
     sourceLanguage f = (inr (masterSourceLanguage master), f)).
Proof.
  unfold sourceLanguage, setSourceLanguage, bind, get, ret.
  split.
  - intros ->. split; reflexivity.
  - intros master ->. reflexivity.
Qed.

End Counting.

(** ** importNewTransUnit *)

Section ImportNewTransUnit.

Context {provider : XmlTreeProvider} {companion : Companion}
        {deriver : StateDeriver}.

Lemma observe_transUnitWithId (f : XtbFile) (unitId : string) :
  exists l,
    transUnits (forced f) = Some l /\
    transUnitWithId unitId f =
      (inr (find (fun tu => String.eqb (_id tu) unitId) l), forced f).
Proof.
  destruct (forced_units f) as [l Hl]. exists l.
  split; [exact Hl | now apply transUnitWithId_run].
Qed.

Lemma forced_hasBundle (f : XtbFile) : hasBundle f -> hasBundle (forced f).
Proof. unfold hasBundle. now rewrite forced_document. Qed.

Lemma changeFirstElement_hasBundle change (f : XtbFile) :
  Dom.keepsTag change ->
  hasBundle f ->
  hasBundle (after (changeFirstElement "translationbundle" change) f).
Proof.
  intros Hkeep Hb. unfold after, changeFirstElement, modify. simpl.
  destruct (Dom.updateFirst "translationbundle" change (_parsedDocument f))
    as [doc' |] eqn:Hdoc; [| exact Hb].
  unfold hasBundle. simpl. eapply updateFirst_keeps; eassumption.
Qed.

Lemma importNewTransUnit_hasBundle transUnit isDefaultLang copyContent f :
  hasBundle f ->
  hasBundle (after (importNewTransUnit transUnit isDefaultLang copyContent) f).
Proof.
  intros Hb.
  destruct (forced_units f) as [l Hl].
  destruct (find (fun x => String.eqb (_id x) (id transUnit)) l) as [tu |] eqn:Hfind.
  - unfold after.
    rewrite (importNewTransUnit_duplicate f transUnit isDefaultLang copyContent l tu Hl Hfind).
    simpl. now apply forced_hasBundle.
  - destruct (importNewTransUnit_fresh f transUnit isDefaultLang copyContent l
                Hl Hfind Hb) as (doc' & Hdoc' & Hrun).
    unfold after. rewrite Hrun. unfold hasBundle. simpl.
    eapply updateFirst_keeps; [apply appendChild_keepsTag | exact Hdoc'].
Qed.

Lemma perform_hasBundle (c : Call) (f : XtbFile) :
  hasBundle f -> hasBundle (perform c f).
Proof.
  intros Hb. destruct c; simpl; unfold after.
  - rewrite warnings_run. now apply forced_hasBundle.
  - destruct (forced_units f) as [l Hl].
    rewrite (numberOfTransUnits_run f l Hl). now apply forced_hasBundle.
  - rewrite numberOfTransUnitsWithMissingId_run. now apply forced_hasBundle.
  - rewrite numberOfUntranslatedTransUnits_run. now apply forced_hasBundle.
  - rewrite numberOfReviewedTransUnits_run. now apply forced_hasBundle.
  - destruct (observe_transUnitWithId f unitId) as (l & _ & ->).
    now apply forced_hasBundle.
  - unfold sourceLanguage, bind, get, ret.
    destruct (_masterFile f); exact Hb.
  - exact Hb.
  - unfold targetLanguage, bind, gets, ret.
    destruct (DOMUtilities.getFirstElementByTagName (_parsedDocument f) "translationbundle");
      exact Hb.
  - unfold setTargetLanguage, bind, gets, ret.
    destruct (DOMUtilities.getFirstElementByTagName (_parsedDocument f) "translationbundle");
      [| exact Hb].
    apply changeFirstElement_hasBundle; [apply setAttribute_keepsTag | exact Hb].
  - exact Hb.
  - exact Hb.
  - now apply importNewTransUnit_hasBundle.
Qed.

(** Every reachable document still has its translationbundle element. *)
Lemma Reachable_hasBundle (f : XtbFile) : Reachable f -> hasBundle f.
Proof.
  induction 1 as [xmlString filePath fileEncoding optionalMaster f Hnew | f c _ IH].
  - apply newXtbFile_document in Hnew. destruct Hnew as [Hdoc Hb].
    unfold hasBundle. rewrite Hdoc. unfold bundlesOf in Hb.
    intros Hnil. rewrite Hnil in Hb. discriminate.
  - now apply perform_hasBundle.
Qed.

(** C4: when the document already holds a unit with the id of the unit
    to import, [importNewTransUnit] throws; the only thing the call has
    done by then is the lazy initialisation of the units that every
    reader does, so the XML document is untouched, an initialised
    object is left exactly as it was, and the unit list and every
    reader (unit count, the three counters, warnings, lookup by id)
    are as before. *)
Theorem importNewTransUnit_duplicate_leaves_document
  (f : XtbFile) (transUnit : ITransUnit) (isDefaultLang copyContent : bool)
  (existing : XtbTransUnit) :
  observe (transUnitWithId (id transUnit)) f = inr (Some existing) ->
  let f' := after (importNewTransUnit transUnit isDefaultLang copyContent) f in
  observe (importNewTransUnit transUnit isDefaultLang copyContent) f
    = inl (duplicateIdError (id transUnit)) /\
  f' = after lazyInitializeTransUnits f /\
  (transUnits f <> None -> f' = f) /\
  _parsedDocument f' = _parsedDocument f /\
  transUnits (after lazyInitializeTransUnits f')
    = transUnits (after lazyInitializeTransUnits f) /\
  observe numberOfTransUnits f' = observe numberOfTransUnits f /\
  observe numberOfTransUnitsWithMissingId f'
    = observe numberOfTransUnitsWithMissingId f /\
  observe numberOfUntranslatedTransUnits f'
    = observe numberOfUntranslatedTransUnits f /\
  observe numberOfReviewedTransUnits f'
    = observe numberOfReviewedTransUnits f /\
  observe warnings f' = observe warnings f /\
  (forall unitId,
      observe (transUnitWithId unitId) f' = observe (transUnitWithId unitId) f).
Proof.
  intros Hexisting f'.
  destruct (observe_transUnitWithId f (id transUnit)) as (l & Hl & Hrun).
  unfold observe in Hexisting. rewrite Hrun in Hexisting. simpl in Hexisting.
  injection Hexisting as Hfind.
  pose proof (importNewTransUnit_duplicate f transUnit isDefaultLang copyContent
                l existing Hl Hfind) as Himport.
  assert (Hf' : f' = forced f) by (subst f'; unfold after; now rewrite Himport).
  assert (Hl' : transUnits (forced (forced f)) = Some l)
    by now rewrite forced_idempotent.
  unfold observe. rewrite Himport, Hf'.
  split; [reflexivity |].
  split; [unfold after; now rewrite lazyInitializeTransUnits_run |].
  split; [unfold forced; destruct (transUnits f); [reflexivity | contradiction] |].
  split; [apply forced_document |].
  split; [unfold after; rewrite !lazyInitializeTransUnits_run; simpl;
          fold (forced f); fold (forced (forced f)); now rewrite forced_idempotent |].
  split; [now rewrite (numberOfTransUnits_run _ l Hl'), (numberOfTransUnits_run _ l Hl) |].
  split; [now rewrite !numberOfTransUnitsWithMissingId_run, forced_idempotent |].
  split; [now rewrite !numberOfUntranslatedTransUnits_run, forced_idempotent |].
  split; [now rewrite !numberOfReviewedTransUnits_run, forced_idempotent |].
  split; [now rewrite !warnings_run, forced_idempotent |].
  intros unitId.
  now rewrite (transUnitWithId_run _ l unitId Hl'), (transUnitWithId_run _ l unitId Hl).
Qed.

(** C9: on a document that was constructed without error, and after any
    calls of its methods, [importNewTransUnit] with an id not yet in the
    document finds the translationbundle element: it does not return
    null, it returns the new unit, which is then the last unit of the
    document, and the document keeps its translationbundle element. *)
Theorem importNewTransUnit_never_null
  (f : XtbFile) (transUnit : ITransUnit) (isDefaultLang copyContent : bool) :
  Reachable f ->
  observe (transUnitWithId (id transUnit)) f = inr None ->
  exists tu f' l,
    importNewTransUnit transUnit isDefaultLang copyContent f = (inr (Some tu), f') /\
    _id tu = id transUnit /\
    transUnits (after lazyInitializeTransUnits f) = Some l /\
    transUnits f' = Some (l ++ [tu])%list /\
    observe numberOfTransUnits f' = inr (S (length l)) /\
    hasBundle f'.
Proof.
  intros Hreach Hfresh.
  pose proof (Reachable_hasBundle f Hreach) as Hb.
  destruct (observe_transUnitWithId f (id transUnit)) as (l & Hl & Hrun).
  unfold observe in Hfresh. rewrite Hrun in Hfresh. simpl in Hfresh.
  injection Hfresh as Hfind.
  destruct (importNewTransUnit_fresh f transUnit isDefaultLang copyContent l
              Hl Hfind Hb) as (doc' & Hdoc' & Himport).
  eexists _, _, l. split; [exact Himport |].
  split; [reflexivity |].
  split; [unfold after; now rewrite lazyInitializeTransUnits_run |].
  split; [reflexivity |].
  split.
  - unfold observe. erewrite numberOfTransUnits_run by reflexivity.
    simpl. rewrite length_app. simpl. f_equal. lia.
  - unfold hasBundle. simpl.
    eapply updateFirst_keeps; [apply appendChild_keepsTag | exact Hdoc'].
Qed.

Lemma find_last_unit (l : list XtbTransUnit) (tu : XtbTransUnit) :
  find (fun x => String.eqb (_id x) (_id tu)) l = None ->
  find (fun x => String.eqb (_id x) (_id tu)) (l ++ [tu]) = Some tu.
Proof.
  induction l as [| x l IH]; simpl.
  - now rewrite String.eqb_refl.
  - destruct (String.eqb (_id x) (_id tu)); [discriminate | exact IH].
Qed.

(** What a successful import returns and leaves behind. *)
Lemma importNewTransUnit_result
  (f : XtbFile) (transUnit : ITransUnit) (isDefaultLang copyContent : bool) :
  hasBundle f ->
  observe (transUnitWithId (id transUnit)) f = inr None ->
  let tu := importedUnit f transUnit isDefaultLang copyContent in
  exists f',
    importNewTransUnit transUnit isDefaultLang copyContent f = (inr (Some tu), f') /\
    observe (transUnitWithId (id transUnit)) f' = inr (Some tu) /\
    In (_element tu) (Dom.getElementsByTagName (_parsedDocument f') "translation").
Proof.
  intros Hb Hfresh tu.
  destruct (observe_transUnitWithId f (id transUnit)) as (l & Hl & Hrun).
  unfold observe in Hfresh. rewrite Hrun in Hfresh. simpl in Hfresh.
  injection Hfresh as Hfind.
  destruct (importNewTransUnit_fresh f transUnit isDefaultLang copyContent l
              Hl Hfind Hb) as (doc' & Hdoc' & Himport).
  eexists. split; [exact Himport |]. split.
  - unfold observe. erewrite transUnitWithId_run by reflexivity.
    simpl. f_equal. apply (find_last_unit l tu). exact Hfind.
  - simpl. eapply updateFirst_appended; [| exact Hdoc'].
    simpl. left. reflexivity.
Qed.

(** C6: an import with an id not yet in the document stores, in the new
    translation element, exactly the unit's source content when that
    content is an ICU message, and the source content between the
    configured prefix and suffix when it is not; neither
    [isDefaultLang] nor [copyContent] changes what is stored. *)
Theorem imported_content_decorated_unless_ICU
  (f : XtbFile) (transUnit : ITransUnit) (isDefaultLang copyContent : bool) :
  hasBundle f ->
  observe (transUnitWithId (id transUnit)) f = inr None ->
  exists tu f' praefix suffix,
    importNewTransUnit transUnit isDefaultLang copyContent f = (inr (Some tu), f') /\
    observe getNewTransUnitTargetPraefix f = inr praefix /\
    observe getNewTransUnitTargetSuffix f = inr suffix /\
    In (_element tu) (Dom.getElementsByTagName (_parsedDocument f') "translation") /\
    Dom.getAttribute (_element tu) "id" = id transUnit /\
    DOMUtilities.getXMLContent (_element tu) =
      (if isICUMessage transUnit (sourceContent transUnit)
       then sourceContent transUnit
       else praefix ++ sourceContent transUnit ++ suffix).
Proof.
  intros Hb Hfresh.
  destruct (importNewTransUnit_result f transUnit isDefaultLang copyContent
              Hb Hfresh) as (f' & Himport & _ & Hin).
  eexists _, f', _, _.
  split; [exact Himport |].
  split; [reflexivity |]. split; [reflexivity |].
  split; [exact Hin |].
  split; [reflexivity |].
  reflexivity.
Qed.

(** C1 (as the code has it): for an import with [isDefaultLang = false]
    and [copyContent = true] of a unit whose id is not yet in the
    document, the unit then stored under that id has as target content
    the unit's source content, between the configured prefix and suffix
    unless it is an ICU message; so the target content equals the source
    content when the content is an ICU message or when prefix and suffix
    are both empty, as they are unless set. *)
Theorem imported_copy_target_is_decorated_source
  (f : XtbFile) (transUnit : ITransUnit) :
  hasBundle f ->
  observe (transUnitWithId (id transUnit)) f = inr None ->
  exists tu f' praefix suffix,
    importNewTransUnit transUnit false true f = (inr (Some tu), f') /\
    observe (transUnitWithId (id transUnit)) f' = inr (Some tu) /\
    observe getNewTransUnitTargetPraefix f = inr praefix /\
    observe getNewTransUnitTargetSuffix f = inr suffix /\
    targetContent tu =
      (if isICUMessage transUnit (sourceContent transUnit)
       then sourceContent transUnit
       else praefix ++ sourceContent transUnit ++ suffix) /\
    (isICUMessage transUnit (sourceContent transUnit) = true
     \/ (praefix = "" /\ suffix = "") ->
     targetContent tu = sourceContent transUnit).
Proof.
  intros Hb Hfresh.
  destruct (importNewTransUnit_result f transUnit false true Hb Hfresh)
    as (f' & Himport & Hstored & _).
  eexists _, f', _, _.
  split; [exact Himport |]. split; [exact Hstored |].
  split; [reflexivity |]. split; [reflexivity |].
  unfold targetContent. simpl. unfold newContentOf.
  split; [reflexivity |].
  intros [Hicu | [Hp Hs]].
  - now rewrite Hicu.
  - rewrite Hp, Hs. simpl. rewrite string_append_empty.
    now destruct (isICUMessage transUnit (sourceContent transUnit)).
Qed.

End ImportNewTransUnit.

(** * Further properties *)

(** ** Changing the first element of a tag *)

Section DomUpdates.



Lemma updateFirstInNode_none name change n :
  Dom.updateFirstInNode name change n = None -> Dom.elementsOfNode name n = [].
Proof.
  intros Hnone.
  destruct (Dom.elementsOfNode name n) as [| e rest] eqn:Ee; [reflexivity |].
  destruct (updateFirstInNode_found name change n) as [n' Hn']; congruence.
Qed.

(** The changed element is the first one of its tag, before and after. *)
Lemma updateFirstInNode_head name change n n' :
  Dom.keepsTag change ->
  Dom.updateFirstInNode name change n = Some n' ->
  exists e rest rest',
    Dom.elementsOfNode name n = e :: rest /\
    Dom.elementsOfNode name n' = change e :: rest'.
Proof.
  intros Hkeep. revert n'.
  induction n as [d | t attrs cs IH] using Node_children_ind; simpl; intros n'.
  - congruence.
  - destruct (String.eqb t name) eqn:Et.
    + intros [= <-]. destruct (Hkeep t attrs cs) as (attrs' & cs' & Hchange).
      exists (Element t attrs cs). rewrite Hchange. simpl. rewrite Et. simpl.
      eauto.
    + match goal with
      | |- context [match ?inChildren cs with _ => _ end] =>
          assert (Hcs : forall cs', inChildren cs = Some cs' ->
                    exists e rest rest',
                      flat_map (Dom.elementsOfNode name) cs = e :: rest /\
                      flat_map (Dom.elementsOfNode name) cs' = change e :: rest')
      end.
      { induction IH as [| c cs Hc _ IHcs]; simpl; intros cs'; [congruence |].
        destruct (Dom.updateFirstInNode name change c) as [c' |] eqn:Ec.
        - intros [= <-]. destruct (Hc c' eq_refl) as (e & rest & rest' & He & He').
          simpl. rewrite He, He'. simpl. eauto.
        - match goal with
          | |- context [match ?rec cs with _ => _ end] => destruct (rec cs) as [tail' |]
          end; [| congruence].
          intros [= <-]. simpl.
          rewrite (updateFirstInNode_none _ _ _ Ec). simpl.
          now apply IHcs. }
      match goal with
      | |- context [match ?inChildren cs with _ => _ end] =>
          destruct (inChildren cs) as [cs' |]
      end; [| congruence].
      intros [= <-]. simpl. rewrite Et. simpl. now apply Hcs.
Qed.

Lemma updateFirst_head name change doc doc' :
  Dom.keepsTag change ->
  Dom.updateFirst name change doc = Some doc' ->
  exists e rest rest',
    Dom.getElementsByTagName doc name = e :: rest /\
    Dom.getElementsByTagName doc' name = change e :: rest'.
Proof.
  intros Hkeep. unfold Dom.getElementsByTagName. revert doc'.
  induction doc as [| n doc IH]; simpl; intros doc'; [congruence |].
  destruct (Dom.updateFirstInNode name change n) as [n' |] eqn:En.
  - intros [= <-].
    destruct (updateFirstInNode_head name change n n' Hkeep En)
      as (e & rest & rest' & He & He').
    simpl. rewrite He, He'. simpl. eauto.
  - destruct (Dom.updateFirst name change doc) as [tail' |]; [| congruence].
    intros [= <-]. simpl. rewrite (updateFirstInNode_none _ _ _ En). simpl.
    now apply IH.
Qed.


Lemma setAttribute_keepsChildren name value : keepsChildren (Dom.setAttribute name value).
Proof. intros t attrs cs. simpl. eauto. Qed.

(** A change of the attributes of an element of one tag leaves the
    attributes of the elements of every other tag as they are. *)
Lemma updateFirstInNode_other_tag name tag key change n n' :
  name <> tag ->
  keepsChildren change ->
  Dom.updateFirstInNode name change n = Some n' ->
  map (fun e => Dom.getAttribute e key) (Dom.elementsOfNode tag n')
  = map (fun e => Dom.getAttribute e key) (Dom.elementsOfNode tag n).
Proof.
  intros Hne Hkeep. revert n'.
  induction n as [d | t attrs cs IH] using Node_children_ind; simpl; intros n'.
  - congruence.
  - destruct (String.eqb t name) eqn:Et.
    + intros [= <-]. destruct (Hkeep t attrs cs) as (attrs' & ->).
      apply String.eqb_eq in Et. subst t. simpl.
      apply String.eqb_neq in Hne. now rewrite Hne.
    + match goal with
      | |- context [match ?inChildren cs with _ => _ end] =>
          assert (Hcs : forall cs', inChildren cs = Some cs' ->
                    map (fun e => Dom.getAttribute e key)
                        (flat_map (Dom.elementsOfNode tag) cs')
                    = map (fun e => Dom.getAttribute e key)
                        (flat_map (Dom.elementsOfNode tag) cs))
      end.
      { induction IH as [| c cs Hc _ IHcs]; simpl; intros cs'; [congruence |].
        destruct (Dom.updateFirstInNode name change c) as [c' |] eqn:Ec.
        - intros [= <-]. simpl. rewrite !map_app. f_equal. now apply Hc.
        - match goal with
          | |- context [match ?rec cs with _ => _ end] => destruct (rec cs) as [tail' |]
          end; [| congruence].
          intros [= <-]. simpl. rewrite !map_app. f_equal. now apply IHcs. }
      match goal with
      | |- context [match ?inChildren cs with _ => _ end] =>
          destruct (inChildren cs) as [cs' |] eqn:Ecs
      end; [| congruence].
      intros [= <-]. simpl. rewrite !map_app. f_equal; [| now apply Hcs].
      destruct (String.eqb t tag); reflexivity.
Qed.

Lemma updateFirst_other_tag name tag key change doc doc' :
  name <> tag ->
  keepsChildren change ->
  Dom.updateFirst name change doc = Some doc' ->
  map (fun e => Dom.getAttribute e key) (Dom.getElementsByTagName doc' tag)
  = map (fun e => Dom.getAttribute e key) (Dom.getElementsByTagName doc tag).
Proof.
  intros Hne Hkeep. unfold Dom.getElementsByTagName. revert doc'.
  induction doc as [| n doc IH]; simpl; intros doc'; [congruence |].
  destruct (Dom.updateFirstInNode name change n) as [n' |] eqn:En.
  - intros [= <-]. simpl. rewrite !map_app. f_equal.
    eapply updateFirstInNode_other_tag; eassumption.
  - destruct (Dom.updateFirst name change doc) as [tail' |]; [| congruence].
    intros [= <-]. simpl. rewrite !map_app. f_equal. now apply IH.
Qed.

Lemma updateFirstInNode_nothing name change n :
  Dom.elementsOfNode name n = [] -> Dom.updateFirstInNode name change n = None.
Proof.
  induction n as [d | t attrs cs IH] using Node_children_ind; simpl.
  - reflexivity.
  - destruct (String.eqb t name); simpl; [discriminate |].
    intros Hnil.
    match goal with
    | |- context [match ?inChildren cs with _ => _ end] =>
        assert (Hcs : inChildren cs = None)
    end.
    { induction IH as [| c cs Hc _ IHcs]; simpl in *; [reflexivity |].
      apply app_eq_nil in Hnil. destruct Hnil as [Hn Hrest].
      rewrite (Hc Hn). now rewrite (IHcs Hrest). }
    now rewrite Hcs.
Qed.

Lemma updateFirst_nothing name change doc :
  Dom.getElementsByTagName doc name = [] -> Dom.updateFirst name change doc = None.
Proof.
  unfold Dom.getElementsByTagName.
  induction doc as [| n doc IH]; simpl; [reflexivity |].
  intros Hnil. apply app_eq_nil in Hnil. destruct Hnil as [Hn Hrest].
  rewrite (updateFirstInNode_nothing _ _ _ Hn). now rewrite (IH Hrest).
Qed.

Lemma lastAscii_append s t c :
  lastAscii t = Some c -> lastAscii (s ++ t) = Some c.
Proof.
  intros Ht. induction s as [| a s IH]; simpl; [exact Ht | now rewrite IH].
Qed.

End DomUpdates.

(** ** What a call can do to the object *)

Section Calls.

Context {provider : XmlTreeProvider} {companion : Companion}
        {deriver : StateDeriver}.

Lemma setParsedDocument_same (f : XtbFile) :
  setParsedDocument (_parsedDocument f) f = f.
Proof. destruct f; reflexivity. Qed.

Lemma unitOfTranslation_ids master msgs :
  map _id (map (unitOfTranslation master) msgs)
  = map (fun msg => Dom.getAttribute msg "id") msgs.
Proof. rewrite map_map. reflexivity. Qed.

Lemma missing_count_of_ids master msgs :
  length (filter (fun tu => String.eqb (_id tu) "") (map (unitOfTranslation master) msgs))
  = length (filter (fun i => String.eqb i "")
              (map (fun msg => Dom.getAttribute msg "id") msgs)).
Proof.
  induction msgs as [| msg msgs IH]; simpl; [reflexivity |].
  destruct (String.eqb (Dom.getAttribute msg "id") ""); simpl; now rewrite IH.
Qed.

Lemma missingIdWarnings_of_ids filename msgs :
  missingIdWarnings filename msgs
  = repeat (missingIdWarning filename)
      (length (filter (fun i => String.eqb i "")
                 (map (fun msg => Dom.getAttribute msg "id") msgs))).
Proof.
  unfold missingIdWarnings, lacksId.
  induction msgs as [| msg msgs IH]; simpl; [reflexivity |].
  destruct (String.eqb (Dom.getAttribute msg "id") ""); simpl; now rewrite IH.
Qed.

(** The object after [setTargetLanguage]: the first translationbundle
    has got its [lang], nothing else is touched. *)
Lemma setTargetLanguage_run (f : XtbFile) language :
  setTargetLanguage language f =
    (inr tt,
     match Dom.updateFirst "translationbundle" (Dom.setAttribute "lang" language)
             (_parsedDocument f) with
     | Some doc' => setParsedDocument doc' f
     | None => f
     end).
Proof.
  unfold setTargetLanguage, changeFirstElement, bind, gets, modify, ret,
    DOMUtilities.getFirstElementByTagName. simpl.
  destruct (Dom.getElementsByTagName (_parsedDocument f) "translationbundle")
    as [| e rest] eqn:Ee; [| reflexivity].
  now rewrite (updateFirst_nothing _ _ _ Ee).
Qed.

Lemma setTargetLanguage_translationIds (f : XtbFile) language :
  translationIds (_parsedDocument (after (setTargetLanguage language) f))
  = translationIds (_parsedDocument f).
Proof.
  unfold after. rewrite setTargetLanguage_run. simpl.
  destruct (Dom.updateFirst "translationbundle" (Dom.setAttribute "lang" language)
              (_parsedDocument f)) as [doc' |] eqn:Hdoc; [| reflexivity].
  simpl. unfold translationIds.
  eapply updateFirst_other_tag; [| apply setAttribute_keepsChildren | exact Hdoc].
  discriminate.
Qed.

(** The three things a call can do: change at most the document and the
    decoration, keeping the ids the translation elements read; run the
    lazy initialisation; or import a unit. *)
Lemma perform_cases (c : Call) (f : XtbFile) :
  (exists doc' praefix suffix,
      perform c f = setDecoration praefix suffix (setParsedDocument doc' f) /\
      translationIds doc' = translationIds (_parsedDocument f) /\
      (hasBundle f -> Dom.getElementsByTagName doc' "translationbundle" <> []))
  \/ perform c f = forced f
  \/ (exists transUnit isDefaultLang copyContent l doc',
        c = CallImportNewTransUnit transUnit isDefaultLang copyContent /\
        transUnits (forced f) = Some l /\
        find (fun x => String.eqb (_id x) (id transUnit)) l = None /\
        Dom.updateFirst "translationbundle"
          (Dom.appendChild (_element (importedUnit f transUnit isDefaultLang copyContent)))
          (_parsedDocument f) = Some doc' /\
        perform c f =
          after countNumbers
            (setTransUnits
               (Some (l ++ [importedUnit f transUnit isDefaultLang copyContent])%list)
               (setParsedDocument doc' (forced f)))).
Proof.
  assert (Hsame : exists doc' praefix suffix,
             f = setDecoration praefix suffix (setParsedDocument doc' f) /\
             translationIds doc' = translationIds (_parsedDocument f) /\
             (hasBundle f -> Dom.getElementsByTagName doc' "translationbundle" <> [])).
  { exists (_parsedDocument f), (targetPraefix f), (targetSuffix f).
    split; [destruct f; reflexivity | split; [reflexivity | auto]]. }
  destruct c; simpl; unfold after.
  - right; left. now rewrite warnings_run.
  - right; left. destruct (forced_units f) as [l Hl].
    now rewrite (numberOfTransUnits_run f l Hl).
  - right; left. now rewrite numberOfTransUnitsWithMissingId_run.
  - right; left. now rewrite numberOfUntranslatedTransUnits_run.
  - right; left. now rewrite numberOfReviewedTransUnits_run.
  - right; left. destruct (observe_transUnitWithId f unitId) as (l & _ & ->).
    reflexivity.
  - left. unfold sourceLanguage, bind, get, ret.
    destruct (_masterFile f); exact Hsame.
  - left. exact Hsame.
  - left. unfold targetLanguage, bind, gets, ret.
    destruct (DOMUtilities.getFirstElementByTagName (_parsedDocument f) "translationbundle");
      exact Hsame.
  - left. rewrite setTargetLanguage_run. simpl.
    pose proof (setTargetLanguage_translationIds f language) as Hids.
    unfold after in Hids. rewrite setTargetLanguage_run in Hids. simpl in Hids.
    destruct (Dom.updateFirst "translationbundle" (Dom.setAttribute "lang" language)
                (_parsedDocument f)) as [doc' |] eqn:Hdoc; [| exact Hsame].
    exists doc', (targetPraefix f), (targetSuffix f).
    split; [destruct f; reflexivity |]. split; [exact Hids |].
    intros _. eapply updateFirst_keeps; [apply setAttribute_keepsTag | exact Hdoc].
  - left. exists (_parsedDocument f), (Some praefix), (targetSuffix f).
    split; [destruct f; reflexivity | split; [reflexivity | auto]].
  - left. exists (_parsedDocument f), (targetPraefix f), (Some suffix).
    split; [destruct f; reflexivity | split; [reflexivity | auto]].
  - destruct (forced_units f) as [l Hl].
    destruct (find (fun x => String.eqb (_id x) (id transUnit)) l) as [tu |] eqn:Hfind.
    + right; left.
      now rewrite (importNewTransUnit_duplicate f transUnit isDefaultLang copyContent
                     l tu Hl Hfind).
    + destruct (Dom.getElementsByTagName (_parsedDocument f) "translationbundle")
        as [| e rest] eqn:Hb.
      * right; left. unfold importNewTransUnit, bind at 1.
        rewrite (transUnitWithId_run f l _ Hl), Hfind.
        unfold bind, get, ret, DOMUtilities.getFirstElementByTagName.
        now rewrite forced_document, Hb.
      * right; right.
        assert (Hbundle : hasBundle f) by (unfold hasBundle; now rewrite Hb).
        destruct (importNewTransUnit_fresh f transUnit isDefaultLang copyContent l
                    Hl Hfind Hbundle) as (doc' & Hdoc' & Hrun).
        exists transUnit, isDefaultLang, copyContent, l, doc'.
        rewrite Hrun. auto.
Qed.

End Calls.

(** ** Target language *)

Section TargetLanguage.

Context {provider : XmlTreeProvider} {companion : Companion}
        {deriver : StateDeriver}.


(** X2: on every document that was constructed without error, after
    any calls, [targetLanguage()] does not take its null branch: it
    returns the [lang] attribute of the first translationbundle element
    (the empty string if there is none), and changes nothing. *)
Theorem targetLanguage_never_null (f : XtbFile) :
  Reachable f ->
  exists bundle rest,
    Dom.getElementsByTagName (_parsedDocument f) "translationbundle" = bundle :: rest /\
    targetLanguage f = (inr (Some (Dom.getAttribute bundle "lang")), f).
Proof.
  intros Hreach. apply Reachable_hasBundle in Hreach. unfold hasBundle in Hreach.
  destruct (Dom.getElementsByTagName (_parsedDocument f) "translationbundle")
    as [| bundle rest] eqn:He; [contradiction |].
  exists bundle, rest. split; [reflexivity |].
  unfold targetLanguage, bind, gets, ret, DOMUtilities.getFirstElementByTagName.
  simpl. now rewrite He.
Qed.

Lemma unitIds_units (f : XtbFile) l :
  transUnits f = Some l -> unitIds f = map _id l.
Proof. intros Hl. unfold unitIds, forced. now rewrite Hl, Hl. Qed.

Lemma unitIds_uninitialised (f : XtbFile) :
  transUnits f = None -> unitIds f = translationIds (_parsedDocument f).
Proof.
  intros Hl. unfold unitIds, forced. rewrite Hl. simpl.
  apply unitOfTranslation_ids.
Qed.

Lemma unitIds_forced (f : XtbFile) : unitIds (forced f) = unitIds f.
Proof. unfold unitIds. now rewrite forced_idempotent. Qed.

(** A change of the document that keeps the ids of its translation
    elements, and any change of the decoration, are not seen by the
    readers of units, counters and warnings. *)
Lemma same_ids_same_readers (f : XtbFile) doc' praefix suffix :
  translationIds doc' = translationIds (_parsedDocument f) ->
  let g := setDecoration praefix suffix (setParsedDocument doc' f) in
  unitIds g = unitIds f /\
  observe numberOfTransUnits g = observe numberOfTransUnits f /\
  observe numberOfTransUnitsWithMissingId g
    = observe numberOfTransUnitsWithMissingId f /\
  observe warnings g = observe warnings f.
Proof.
  intros Hids g. unfold translationIds in Hids.
  destruct (transUnits f) as [l |] eqn:Hl.
  - assert (Hg : transUnits g = Some l) by exact Hl.
    split; [now rewrite (unitIds_units g l Hg), (unitIds_units f l Hl) |].
    unfold observe.
    rewrite (numberOfTransUnits_run g l), (numberOfTransUnits_run f l)
      by (unfold forced; now rewrite ?Hg, ?Hl).
    rewrite !numberOfTransUnitsWithMissingId_run, !warnings_run.
    unfold forced. rewrite Hg, Hl. auto.
  - assert (Hg : transUnits g = None) by exact Hl.
    split.
    { rewrite (unitIds_uninitialised g Hg), (unitIds_uninitialised f Hl).
      exact Hids. }
    unfold observe.
    erewrite (numberOfTransUnits_run g), (numberOfTransUnits_run f)
      by (unfold forced; rewrite ?Hg, ?Hl; reflexivity).
    rewrite !numberOfTransUnitsWithMissingId_run, !warnings_run.
    unfold forced. rewrite Hg, Hl. simpl.
    rewrite !length_map, !missing_count_of_ids, !missingIdWarnings_of_ids.
    rewrite Hids.
    apply (f_equal (@length string)) in Hids. rewrite !length_map in Hids.
    rewrite Hids. auto.
Qed.

(** X3: [setTargetLanguage(lang)] keeps the ids that the translation
    elements of the document read, so the ids of the units, the unit
    count, the count of units without id and the warnings are the same
    whether the language is set before or after the units are first
    read. *)
Theorem setTargetLanguage_keeps_units (f : XtbFile) (language : string) :
  let f' := after (setTargetLanguage language) f in
  translationIds (_parsedDocument f') = translationIds (_parsedDocument f) /\
  unitIds f' = unitIds f /\
  observe numberOfTransUnits f' = observe numberOfTransUnits f /\
  observe numberOfTransUnitsWithMissingId f'
    = observe numberOfTransUnitsWithMissingId f /\
  observe warnings f' = observe warnings f.
Proof.
  intros f'. pose proof (setTargetLanguage_translationIds f language) as Hids.
  fold f' in Hids. split; [exact Hids |].
  assert (Hf' : f' = setDecoration (targetPraefix f) (targetSuffix f)
                       (setParsedDocument (_parsedDocument f') f)).
  { subst f'. unfold after. rewrite setTargetLanguage_run. simpl.
    destruct (Dom.updateFirst "translationbundle" (Dom.setAttribute "lang" language)
                (_parsedDocument f)); destruct f; reflexivity. }
  rewrite Hf' at 1 2 3 4.
  exact (same_ids_same_readers f _ _ _ Hids).
Qed.

End TargetLanguage.

(** ** Invariants of the reachable documents *)

Section Invariants.

Context {provider : XmlTreeProvider} {companion : Companion}
        {deriver : StateDeriver}.

(** The units of a newly constructed document, as every reader sees
    them: one for each translation element of the text, linked to the
    master that was attached. *)
Lemma constructed_units xmlString filePath fileEncoding optionalMaster f :
  newXtbFile xmlString filePath fileEncoding optionalMaster = inr f ->
  transUnits (forced f)
  = Some (map (unitOfTranslation (_masterFile f)) (translationsOf xmlString)) /\
  countersCurrent f /\
  _warnings (forced f)
  = (missingIdWarnings filePath (translationsOf xmlString)
       ++ match _masterFile f with
          | Some m =>
              if Nat.eqb (masterNumberOfTransUnits m)
                         (length (translationsOf xmlString))
              then []
              else [masterMismatchWarning (masterNumberOfTransUnits m)
                      (length (translationsOf xmlString))]
          | None => []
          end)%list.
Proof.
  intros Hnew.
  destruct (newXtbFile_cases xmlString filePath fileEncoding optionalMaster)
    as [[_ H] | [(Hb & _ & H) | [(master & _ & _ & _ & H) | (master & m & Hb & _ & _ & H)]]];
    rewrite H in Hnew; try discriminate; injection Hnew as <-.
  - split; [reflexivity |]. split; [intros l Hl; discriminate |].
    simpl. unfold translationsOf. now rewrite app_nil_r.
  - unfold withMaster, forced.
    destruct (Nat.eqb (masterNumberOfTransUnits m) (length (translationsOf xmlString)))
      eqn:Ecount;
      simpl; (split; [reflexivity |]);
      (split; [intros l [= <-]; simpl; auto |]);
      fold (translationsOf xmlString); rewrite Ecount, ?app_nil_r; reflexivity.
Qed.

Lemma forced_countersCurrent (f : XtbFile) :
  countersCurrent f -> countersCurrent (forced f).
Proof.
  intros Hf. unfold forced. destruct (transUnits f) eqn:Hl; [exact Hf |].
  intros l [= <-]. simpl. auto.
Qed.

Lemma perform_countersCurrent (c : Call) (f : XtbFile) :
  countersCurrent f -> countersCurrent (perform c f).
Proof.
  intros Hf.
  destruct (perform_cases c f)
    as [(doc' & praefix & suffix & -> & _) | [-> | (u & dl & cc & l & doc' & _ & _ & _ & _ & ->)]].
  - exact Hf.
  - now apply forced_countersCurrent.
  - intros l' [= <-]. simpl. auto.
Qed.

Lemma Reachable_countersCurrent (f : XtbFile) :
  Reachable f -> countersCurrent f.
Proof.
  induction 1 as [xmlString filePath fileEncoding optionalMaster f Hnew | f c _ IH].
  - now apply constructed_units in Hnew.
  - now apply perform_countersCurrent.
Qed.

(** X4: on every document that was constructed without error, after any
    calls (imports included), [numberOfTransUnitsWithMissingId()]
    returns the number of units with an empty id in the unit list that
    [numberOfTransUnits] and [transUnitWithId] read: the import recounts
    after it has pushed the new unit, so no reader sees the count from
    before an import.  A unit's id is fixed when the unit is made. *)
Theorem missing_id_count_reflects_units (f : XtbFile) :
  Reachable f ->
  exists l,
    transUnits (forced f) = Some l /\
    observe numberOfTransUnits f = inr (length l) /\
    observe numberOfTransUnitsWithMissingId f
      = inr (length (filter (fun tu => String.eqb (_id tu) "") l)).
Proof.
  intros Hreach.
  pose proof (forced_countersCurrent f (Reachable_countersCurrent f Hreach)) as Hcur.
  destruct (forced_units f) as [l Hl]. exists l.
  pose proof (Hcur l Hl) as Hmissing.
  split; [exact Hl |]. unfold observe.
  rewrite (numberOfTransUnits_run f l Hl), numberOfTransUnitsWithMissingId_run.
  simpl. rewrite Hmissing. auto.
Qed.

(** X5: on every document that was constructed without error, after any
    calls, each unit carries the id that the [id] attribute of its own
    translation element reads; this holds of the units made from the
    file and of the units made by an import. *)
Theorem units_carry_the_id_of_their_element (f : XtbFile) :
  Reachable f ->
  exists l,
    transUnits (forced f) = Some l /\
    Forall (fun tu => _id tu = Dom.getAttribute (_element tu) "id") l.
Proof.
  assert (Hparsed : forall master msgs,
             Forall (fun tu => _id tu = Dom.getAttribute (_element tu) "id")
                    (map (unitOfTranslation master) msgs)).
  { intros master msgs. apply Forall_forall. intros tu Hin.
    apply in_map_iff in Hin. destruct Hin as (msg & <- & _). reflexivity. }
  induction 1 as [xmlString filePath fileEncoding optionalMaster f Hnew | f c _ IH].
  - apply constructed_units in Hnew. destruct Hnew as (Hunits & _).
    eexists. split; [exact Hunits | apply Hparsed].
  - destruct IH as (l & Hl & Hall).
    destruct (perform_cases c f)
      as [(doc' & praefix & suffix & -> & _)
         | [-> | (u & dl & cc & l' & doc' & _ & Hl' & _ & _ & ->)]].
    + unfold forced in *. simpl.
      destruct (transUnits f) eqn:Hf.
      * exists l. split; [exact Hl | exact Hall].
      * simpl. eexists. split; [reflexivity | apply Hparsed].
    + rewrite forced_idempotent. eauto.
    + rewrite Hl' in Hl. injection Hl as <-.
      eexists. split; [reflexivity |].
      apply Forall_app. split; [exact Hall |].
      constructor; [reflexivity | constructor].
Qed.

Lemma find_none_no_id (l : list XtbTransUnit) unitId :
  find (fun x => String.eqb (_id x) unitId) l = None -> ~ In unitId (map _id l).
Proof.
  induction l as [| x l IH]; simpl; [tauto |].
  destruct (String.eqb (_id x) unitId) eqn:Ex; [discriminate |].
  apply String.eqb_neq in Ex. intros Hfind [Heq | Hin]; [congruence | now apply IH].
Qed.

Lemma NoDup_add_last (l : list string) (x : string) :
  NoDup l -> ~ In x l -> NoDup (l ++ [x]).
Proof.
  induction 1 as [| y l Hy Hl IH]; simpl; intros Hx.
  - constructor; [tauto | constructor].
  - constructor.
    + intros Hin. apply in_app_or in Hin. simpl in Hin.
      destruct Hin as [Hin | [Heq | []]]; [tauto | subst; tauto].
    + apply IH. tauto.
Qed.

Lemma unitIds_imported (f g : XtbFile) l (tu : XtbTransUnit) :
  transUnits (forced f) = Some l ->
  unitIds (after countNumbers (setTransUnits (Some (l ++ [tu])%list) g))
  = (unitIds f ++ [_id tu])%list.
Proof.
  intros Hl. unfold unitIds at 2. rewrite Hl.
  erewrite unitIds_units by reflexivity. now rewrite map_app.
Qed.

(** X6: no call makes two units share an id that did not before: if the
    ids of the units are pairwise different before a call (an import
    included), they are pairwise different after it. *)
Theorem calls_keep_ids_distinct (c : Call) (f : XtbFile) :
  NoDup (unitIds f) -> NoDup (unitIds (perform c f)).
Proof.
  intros Hnodup.
  destruct (perform_cases c f)
    as [(doc' & praefix & suffix & -> & Hids & _)
       | [-> | (u & dl & cc & l & doc' & _ & Hl & Hfind & _ & ->)]].
  - destruct (same_ids_same_readers f doc' praefix suffix Hids) as [-> _].
    exact Hnodup.
  - now rewrite unitIds_forced.
  - rewrite (unitIds_imported f _ l _ Hl).
    apply NoDup_add_last; [exact Hnodup |].
    unfold unitIds. rewrite Hl. simpl. now apply find_none_no_id.
Qed.

End Invariants.

(** ** An import and the rest of the document *)

Section ImportFrame.

Context {provider : XmlTreeProvider} {companion : Companion}
        {deriver : StateDeriver}.

Lemma find_other_unit (l : list XtbTransUnit) (tu : XtbTransUnit) other :
  other <> _id tu ->
  find (fun x => String.eqb (_id x) other) (l ++ [tu])
  = find (fun x => String.eqb (_id x) other) l.
Proof.
  intros Hne. induction l as [| x l IH]; simpl.
  - apply not_eq_sym in Hne. apply String.eqb_neq in Hne. now rewrite Hne.
  - destruct (String.eqb (_id x) other); [reflexivity | exact IH].
Qed.

Lemma getAttribute_appendChild child e name :
  Dom.getAttribute (Dom.appendChild child e) name = Dom.getAttribute e name.
Proof. destruct e; reflexivity. Qed.

(** X7: a successful import on a document that was constructed without
    error leaves the rest as it was: the lookup of every other id, the
    warnings and the target language answer as before, the ids of the
    units are the former ones followed by the new id, and the count of
    units without id grows by one exactly when the imported id is
    empty (no warning is recorded for it). *)
Theorem importNewTransUnit_keeps_the_rest
  (f : XtbFile) (transUnit : ITransUnit) (isDefaultLang copyContent : bool) :
  Reachable f ->
  observe (transUnitWithId (id transUnit)) f = inr None ->
  let f' := after (importNewTransUnit transUnit isDefaultLang copyContent) f in
  (forall other,
      other <> id transUnit ->
      observe (transUnitWithId other) f' = observe (transUnitWithId other) f) /\
  observe warnings f' = observe warnings f /\
  observe targetLanguage f' = observe targetLanguage f /\
  unitIds f' = (unitIds f ++ [id transUnit])%list /\
  exists n,
    observe numberOfTransUnitsWithMissingId f = inr n /\
    observe numberOfTransUnitsWithMissingId f'
    = inr (n + (if String.eqb (id transUnit) "" then 1 else 0)).
Proof.
  intros Hreach Hfresh f'.
  pose proof (Reachable_hasBundle f Hreach) as Hb.
  pose proof (forced_countersCurrent f (Reachable_countersCurrent f Hreach)) as Hcur.
  destruct (observe_transUnitWithId f (id transUnit)) as (l & Hl & Hrun).
  unfold observe in Hfresh. rewrite Hrun in Hfresh. simpl in Hfresh.
  injection Hfresh as Hfind.
  destruct (importNewTransUnit_fresh f transUnit isDefaultLang copyContent l
              Hl Hfind Hb) as (doc' & Hdoc' & Himport).
  set (tu := importedUnit f transUnit isDefaultLang copyContent) in *.
  assert (Hf' : f' = after countNumbers
                       (setTransUnits (Some (l ++ [tu])%list)
                          (setParsedDocument doc' (forced f))))
    by (subst f'; unfold after at 1; now rewrite Himport).
  split.
  { intros other Hother. unfold observe.
    rewrite (transUnitWithId_run f l other Hl).
    rewrite (transUnitWithId_run f' (l ++ [tu]) other) by (rewrite Hf'; reflexivity).
    simpl. f_equal. now apply find_other_unit. }
  split.
  { unfold observe. rewrite !warnings_run, Hf'. reflexivity. }
  split.
  { destruct (updateFirst_head _ _ _ _ (appendChild_keepsTag (_element tu)) Hdoc')
      as (e & rest & rest' & He & He').
    unfold observe, targetLanguage, bind, gets, ret,
      DOMUtilities.getFirstElementByTagName.
    rewrite Hf'. simpl. rewrite He, He'. simpl.
    now rewrite getAttribute_appendChild. }
  split.
  { rewrite Hf'. exact (unitIds_imported f _ l tu Hl). }
  pose proof (Hcur l Hl) as Hmissing.
  exists (length (filter (fun x => String.eqb (_id x) "") l)).
  unfold observe. rewrite !numberOfTransUnitsWithMissingId_run.
  split; [simpl; now rewrite Hmissing |].
  rewrite Hf'. simpl. rewrite filter_app, length_app. simpl.
  destruct (String.eqb (id transUnit) ""); reflexivity.
Qed.

(** X8: an id can be imported once: after a successful import, an
    import of any unit with the same id throws the duplicate-id error
    and leaves the object exactly as the first import left it. *)
Theorem importNewTransUnit_again_throws
  (f : XtbFile) (transUnit again : ITransUnit)
  (isDefaultLang copyContent isDefaultLang' copyContent' : bool) :
  hasBundle f ->
  observe (transUnitWithId (id transUnit)) f = inr None ->
  id again = id transUnit ->
  let f' := after (importNewTransUnit transUnit isDefaultLang copyContent) f in
  importNewTransUnit again isDefaultLang' copyContent' f'
  = (inl (duplicateIdError (id transUnit)), f').
Proof.
  intros Hb Hfresh Hid f'.
  destruct (observe_transUnitWithId f (id transUnit)) as (l & Hl & Hrun).
  unfold observe in Hfresh. rewrite Hrun in Hfresh. simpl in Hfresh.
  injection Hfresh as Hfind.
  destruct (importNewTransUnit_fresh f transUnit isDefaultLang copyContent l
              Hl Hfind Hb) as (doc' & Hdoc' & Himport).
  set (tu := importedUnit f transUnit isDefaultLang copyContent) in *.
  assert (Hf' : f' = after countNumbers
                       (setTransUnits (Some (l ++ [tu])%list)
                          (setParsedDocument doc' (forced f))))
    by (subst f'; unfold after at 1; now rewrite Himport).
  rewrite (importNewTransUnit_duplicate f' again isDefaultLang' copyContent'
             (l ++ [tu]) tu).
  - rewrite Hid, Hf'. reflexivity.
  - rewrite Hf'. reflexivity.
  - rewrite Hid. apply (find_last_unit l tu). exact Hfind.
Qed.

Lemma bind_same_start {A B : Type} (m : M XtbFile A) (k : A -> M XtbFile B)
  (f g : XtbFile) :
  m f = m g -> bind m k f = bind m k g.
Proof. unfold bind. now intros ->. Qed.

(** X12: after a successful import exactly one unit has the imported
    id, also when the units had not been read before the import: the
    duplicate check has initialised them, so the initialisation after
    [appendChild] does not pick up the new element a second time. *)
Theorem imported_id_occurs_once
  (f : XtbFile) (transUnit : ITransUnit) (isDefaultLang copyContent : bool) :
  hasBundle f ->
  observe (transUnitWithId (id transUnit)) f = inr None ->
  let f' := after (importNewTransUnit transUnit isDefaultLang copyContent) f in
  count_occ string_dec (unitIds f') (id transUnit) = 1 /\
  observe numberOfTransUnits f' = inr (S (length (unitIds f))).
Proof.
  intros Hb Hfresh f'.
  destruct (observe_transUnitWithId f (id transUnit)) as (l & Hl & Hrun).
  unfold observe in Hfresh. rewrite Hrun in Hfresh. simpl in Hfresh.
  injection Hfresh as Hfind.
  destruct (importNewTransUnit_fresh f transUnit isDefaultLang copyContent l
              Hl Hfind Hb) as (doc' & Hdoc' & Himport).
  set (tu := importedUnit f transUnit isDefaultLang copyContent) in *.
  assert (Hf' : f' = after countNumbers
                       (setTransUnits (Some (l ++ [tu])%list)
                          (setParsedDocument doc' (forced f))))
    by (subst f'; unfold after at 1; now rewrite Himport).
  assert (Hids : unitIds f = map _id l) by (unfold unitIds; now rewrite Hl).
  split.
  - rewrite Hf', (unitIds_imported f _ l tu Hl), count_occ_app, Hids.
    rewrite (proj1 (count_occ_not_In string_dec _ _) (find_none_no_id l _ Hfind)).
    simpl. destruct (string_dec (id transUnit) (id transUnit)); [reflexivity | contradiction].
  - unfold observe.
    rewrite (numberOfTransUnits_run f' (l ++ [tu])) by (rewrite Hf'; reflexivity).
    simpl. rewrite Hids, length_app, length_map. simpl. f_equal. lia.
Qed.

(** X13: reading the document before an import changes nothing of the
    import: after [warnings()], [numberOfTransUnits()] or a lookup by
    id, [importNewTransUnit] returns the same result or error and
    leaves the same object as without that call. *)
Theorem readers_do_not_change_an_import
  (f : XtbFile) (transUnit : ITransUnit) (isDefaultLang copyContent : bool) :
  importNewTransUnit transUnit isDefaultLang copyContent (after warnings f)
  = importNewTransUnit transUnit isDefaultLang copyContent f /\
  importNewTransUnit transUnit isDefaultLang copyContent (after numberOfTransUnits f)
  = importNewTransUnit transUnit isDefaultLang copyContent f /\
  (forall unitId,
      importNewTransUnit transUnit isDefaultLang copyContent
        (after (transUnitWithId unitId) f)
      = importNewTransUnit transUnit isDefaultLang copyContent f).
Proof.
  destruct (forced_units f) as [l Hl].
  assert (Hforced : importNewTransUnit transUnit isDefaultLang copyContent (forced f)
                    = importNewTransUnit transUnit isDefaultLang copyContent f).
  { unfold importNewTransUnit. apply bind_same_start.
    rewrite (transUnitWithId_run f l _ Hl).
    rewrite (transUnitWithId_run (forced f) l)
      by now rewrite forced_idempotent.
    now rewrite forced_idempotent. }
  unfold after.
  rewrite warnings_run, (numberOfTransUnits_run f l Hl). simpl.
  split; [exact Hforced |]. split; [exact Hforced |].
  intros unitId. rewrite (transUnitWithId_run f l unitId Hl). exact Hforced.
Qed.

End ImportFrame.

(** ** A newly constructed document *)

Section Constructed.

Context {provider : XmlTreeProvider} {companion : Companion}
        {deriver : StateDeriver}.

Lemma find_map_unit master msgs unitId :
  find (fun tu => String.eqb (_id tu) unitId) (map (unitOfTranslation master) msgs)
  = option_map (unitOfTranslation master)
      (find (fun msg => String.eqb (Dom.getAttribute msg "id") unitId) msgs).
Proof.
  induction msgs as [| msg msgs IH]; simpl; [reflexivity |].
  destruct (String.eqb (Dom.getAttribute msg "id") unitId); [reflexivity | exact IH].
Qed.

(** X9: on a newly constructed document, [transUnitWithId(id)] answers
    with the unit of the first translation element, in document order,
    whose [id] attribute reads [id], and with nothing when there is no
    such element; the unit found carries that id and is linked to what
    the attached master answers for the same id (to nothing without a
    master). *)
Theorem transUnitWithId_finds_first_translation
  xmlString filePath fileEncoding optionalMaster f unitId :
  newXtbFile xmlString filePath fileEncoding optionalMaster = inr f ->
  observe (transUnitWithId unitId) f
  = inr (option_map (unitOfTranslation (_masterFile f))
           (find (fun msg => String.eqb (Dom.getAttribute msg "id") unitId)
                 (translationsOf xmlString))) /\
  (forall tu,
      observe (transUnitWithId unitId) f = inr (Some tu) ->
      _id tu = unitId /\
      In (_element tu) (translationsOf xmlString) /\
      _sourceTransUnitFromMaster tu
      = match _masterFile f with
        | Some master => masterTransUnitWithId master unitId
        | None => None
        end).
Proof.
  intros Hnew. apply constructed_units in Hnew. destruct Hnew as (Hunits & _).
  assert (Hrun : observe (transUnitWithId unitId) f
                 = inr (option_map (unitOfTranslation (_masterFile f))
                          (find (fun msg => String.eqb (Dom.getAttribute msg "id") unitId)
                                (translationsOf xmlString)))).
  { unfold observe. rewrite (transUnitWithId_run f _ unitId Hunits). simpl.
    now rewrite find_map_unit. }
  split; [exact Hrun |].
  intros tu Htu. rewrite Hrun in Htu. injection Htu as Htu.
  destruct (find (fun msg => String.eqb (Dom.getAttribute msg "id") unitId)
                 (translationsOf xmlString)) as [msg |] eqn:Hfind; [| discriminate].
  injection Htu as <-. apply find_some in Hfind. destruct Hfind as [Hin Heq].
  apply String.eqb_eq in Heq. simpl. rewrite Heq. auto.
Qed.

(** X10: on a newly constructed document the warnings are one
    missing-id warning for each unit without id and, when a master is
    attached whose unit count differs, one more: [warnings().length] is
    [numberOfTransUnitsWithMissingId()], plus one in that case; and
    [numberOfTransUnits()] counts every translation element of the
    text. *)
Theorem warnings_count_units_without_id
  xmlString filePath fileEncoding optionalMaster f :
  newXtbFile xmlString filePath fileEncoding optionalMaster = inr f ->
  exists ws missing,
    observe warnings f = inr ws /\
    observe numberOfTransUnitsWithMissingId f = inr missing /\
    observe numberOfTransUnits f = inr (length (translationsOf xmlString)) /\
    missing = length (filter lacksId (translationsOf xmlString)) /\
    length ws
    = missing
      + match _masterFile f with
        | Some master =>
            if Nat.eqb (masterNumberOfTransUnits master)
                       (length (translationsOf xmlString))
            then 0 else 1
        | None => 0
        end.
Proof.
  intros Hnew. apply constructed_units in Hnew.
  destruct Hnew as (Hunits & Hcur & Hws).
  apply forced_countersCurrent in Hcur.
  pose proof (Hcur _ Hunits) as Hmissing.
  exists (_warnings (forced f)), (_numberOfTransUnitsWithMissingId (forced f)).
  unfold observe.
  rewrite warnings_run, numberOfTransUnitsWithMissingId_run,
    (numberOfTransUnits_run f _ Hunits).
  simpl. rewrite length_map.
  split; [reflexivity |]. split; [reflexivity |]. split; [reflexivity |].
  rewrite Hmissing, filter_missing_units, length_map.
  split; [reflexivity |].
  rewrite Hws, length_app, missingIdWarnings_length.
  destruct (_masterFile f) as [master |]; [| reflexivity].
  destruct (Nat.eqb (masterNumberOfTransUnits master) (length (translationsOf xmlString)));
    reflexivity.
Qed.

Lemma noXtbFileError_last filePath : lastAscii (noXtbFileError filePath) = Some ")"%char.
Proof.
  unfold noXtbFileError. repeat apply lastAscii_append. reflexivity.
Qed.

Lemma noXmbFileError_last masterPath : lastAscii (noXmbFileError masterPath) = Some "."%char.
Proof.
  unfold noXmbFileError. repeat apply lastAscii_append. reflexivity.
Qed.

Lemma undefinedDocumentError_last : lastAscii undefinedDocumentError = Some "d"%char.
Proof. reflexivity. Qed.

(** X11: the error of a failed construction tells what is at fault.
    It is the TypeError of the engine exactly when the parser has
    returned undefined for the text; it is the xtb error, naming the
    file path, exactly when there is a document that does not hold one
    translationbundle element (a master given with it is then not
    looked at); and for a text with its one translationbundle it is the
    xmb error naming the path of the master, which the XmbFile
    constructor has rejected.  The three errors are never the same
    text. *)
Theorem construction_error_tells_the_file
  xmlString filePath fileEncoding optionalMaster e :
  newXtbFile xmlString filePath fileEncoding optionalMaster = inl e ->
  (e = undefinedDocumentError <-> parseFromString xmlString = None) /\
  (e = noXtbFileError filePath <->
   parseFromString xmlString <> None /\ bundlesOf xmlString <> 1) /\
  (bundlesOf xmlString = 1 ->
   exists master,
     optionalMaster = Some master /\
     newXmbFile (xmlContent master) (path master) (encoding master) = None /\
     e = noXmbFileError (path master)) /\
  (forall anyPath masterPath,
      noXtbFileError anyPath <> noXmbFileError masterPath /\
      noXtbFileError anyPath <> undefinedDocumentError /\
      noXmbFileError masterPath <> undefinedDocumentError).
Proof.
  intros Hnew.
  assert (Hdiffer : forall anyPath masterPath,
             noXtbFileError anyPath <> noXmbFileError masterPath /\
             noXtbFileError anyPath <> undefinedDocumentError /\
             noXmbFileError masterPath <> undefinedDocumentError).
  { intros anyPath masterPath.
    pose proof (noXtbFileError_last anyPath) as Hxtb.
    pose proof (noXmbFileError_last masterPath) as Hxmb.
    pose proof undefinedDocumentError_last as Hundefined.
    repeat split; intros Heq; rewrite Heq in *; congruence. }
  destruct (newXtbFile_cases xmlString filePath fileEncoding optionalMaster)
    as [[Hb H] | [(Hb & _ & H) | [(master & Hb & Hom & Hm & H) | (master & m & Hb & _ & _ & H)]]];
    rewrite H in Hnew; try discriminate; injection Hnew as <-.
  - destruct (parseFromString xmlString) as [doc |] eqn:Hdoc.
    + split.
      { split; [| discriminate]. intros Heq. exfalso.
        exact (proj1 (proj2 (Hdiffer filePath EmptyString)) Heq). }
      split; [| split; [contradiction | exact Hdiffer]].
      split; [intros _; split; [discriminate | exact Hb] | reflexivity].
    + split; [split; reflexivity |].
      split; [| split; [contradiction | exact Hdiffer]].
      split; [| intros [Hsome _]; contradiction].
      intros Heq. exfalso. symmetry in Heq.
      exact (proj1 (proj2 (Hdiffer filePath EmptyString)) Heq).
  - destruct (one_bundle_parsed xmlString Hb) as [doc Hdoc].
    split.
    { split; [| congruence]. intros Heq. exfalso.
      exact (proj2 (proj2 (Hdiffer EmptyString (path master))) Heq). }
    split.
    { split; [| intros [_ Hne]; contradiction].
      intros Heq. exfalso. symmetry in Heq.
      exact (proj1 (Hdiffer filePath (path master)) Heq). }
    split; [| exact Hdiffer]. intros _. exists master. auto.
Qed.

End Constructed.

(** ** The theorems on the sample files *)

Import Example.

(** C1, the claim as first stated fails: into a document whose new
    targets get the prefix %%, the import with [isDefaultLang = false]
    and [copyContent = true] stores a target content that is not the
    unit's source content. *)
Lemma copied_target_is_not_source_counterexample :
  Reachable documentBWithPraefix /\
  observe (transUnitWithId (id unitToMerge)) documentBWithPraefix = inr None /\
  exists tu f',
    importNewTransUnit unitToMerge false true documentBWithPraefix
      = (inr (Some tu), f') /\
    sourceContent unitToMerge = "Test for merging units" /\
    targetContent tu = "%%Test for merging units" /\
    targetContent tu <> sourceContent unitToMerge.
Proof.
  split.
  { apply reachable_call.
    apply (reachable_new smallXtb "messages.en.xtb" "UTF-8" None).
    reflexivity. }
  split; [reflexivity |].
  eexists _, _. split; [vm_compute; reflexivity |].
  split; [reflexivity |]. split; [reflexivity |].
  vm_compute. discriminate.
Qed.

(** With [copyContent = false] (and [isDefaultLang = false]) the import
    writes the source content all the same: the flags are not looked at
    when the content of the new element is chosen. *)
Example import_without_copy_stores_source :
  exists tu f',
    importNewTransUnit unitToMerge false false documentB = (inr (Some tu), f') /\
    targetContent tu = "Test for merging units".
Proof. eexists _, _. split; vm_compute; reflexivity. Qed.

Lemma imported_copy_target_is_decorated_source_witness :
  hasBundle documentB /\
  observe (transUnitWithId (id unitToMerge)) documentB = inr None /\
  exists tu f' praefix suffix,
    importNewTransUnit unitToMerge false true documentB = (inr (Some tu), f') /\
    observe (transUnitWithId (id unitToMerge)) f' = inr (Some tu) /\
    observe getNewTransUnitTargetPraefix documentB = inr praefix /\
    observe getNewTransUnitTargetSuffix documentB = inr suffix /\
    targetContent tu =
      (if isICUMessage unitToMerge (sourceContent unitToMerge)
       then sourceContent unitToMerge
       else praefix ++ sourceContent unitToMerge ++ suffix) /\
    (isICUMessage unitToMerge (sourceContent unitToMerge) = true
     \/ (praefix = "" /\ suffix = "") ->
     targetContent tu = sourceContent unitToMerge).
Proof.
  assert (Hb : hasBundle documentB) by (vm_compute; discriminate).
  assert (Hfresh : observe (transUnitWithId (id unitToMerge)) documentB = inr None)
    by reflexivity.
  split; [exact Hb |]. split; [exact Hfresh |].
  exact (imported_copy_target_is_decorated_source documentB unitToMerge Hb Hfresh).
Defined.

(** C2, the claim as first stated fails: with a master text that is no
    xmb file the constructor throws, and no document is constructed. *)
Lemma rejected_master_leaves_no_document_counterexample :
  newXmbFile (xmlContent notAMaster) (path notAMaster) (encoding notAMaster) = None /\
  bundlesOf smallXtb = 1 /\
  ~ exists f,
      newXtbFile smallXtb "messages.en.xtb" "UTF-8" (Some notAMaster) = inr f.
Proof.
  split; [reflexivity |]. split; [reflexivity |].
  intros [f Hf]. vm_compute in Hf. discriminate.
Qed.

Lemma rejected_master_fails_construction_witness :
  newXmbFile (xmlContent notAMaster) (path notAMaster) (encoding notAMaster) = None /\
  exists e,
    newXtbFile smallXtb "messages.en.xtb" "UTF-8" (Some notAMaster) = inl e /\
    (bundlesOf smallXtb = 1 -> e = noXmbFileError (path notAMaster)).
Proof.
  assert (Hm : newXmbFile (xmlContent notAMaster) (path notAMaster)
                 (encoding notAMaster) = None) by reflexivity.
  split; [exact Hm |].
  exact (rejected_master_fails_construction smallXtb "messages.en.xtb" "UTF-8"
           notAMaster Hm).
Defined.

(** C5, the claim as first stated fails: a text with exactly one
    translationbundle element, given with a master text that is no xmb
    file, is not constructed; the constructor throws although the root
    marker is there exactly once. *)
Lemma one_bundle_still_fails_counterexample :
  bundlesOf smallXtb = 1 /\
  newXtbFile smallXtb "messages.en.xtb" "UTF-8" (Some notAMaster)
  = inl (noXmbFileError "messages.xlf").
Proof. split; vm_compute; reflexivity. Qed.

(** With a master of as many units as the document, only the missing-id
    warning is recorded. *)
Example equal_counts_no_mismatch_warning :
  exists f,
    newXtbFile smallXtb "messages.en.xtb" "UTF-8" (Some masterOfTwo) = inr f /\
    observe warnings f = inr [missingIdWarning "messages.en.xtb"].
Proof. eexists. split; vm_compute; reflexivity. Qed.

Lemma master_count_mismatch_warns_once_witness :
  bundlesOf smallXtb = 1 /\
  newXmbFile (xmlContent masterDe) (path masterDe) (encoding masterDe)
    = Some (mkXmb (parse (xmlContent masterDe)) (path masterDe)) /\
  exists f ws,
    newXtbFile smallXtb "messages.en.xtb" "UTF-8" (Some masterDe) = inr f /\
    observe numberOfTransUnits f = inr 2 /\
    observe warnings f = inr ws /\
    ws = (missingIdWarnings "messages.en.xtb" (translationsOf smallXtb)
            ++ [masterMismatchWarning 1 2])%list /\
    (forall w a b,
        In w (missingIdWarnings "messages.en.xtb" (translationsOf smallXtb)) ->
        w <> masterMismatchWarning a b) /\
    count_occ string_dec ws (masterMismatchWarning 1 2) = 1 /\
    Includes (masterMismatchWarning 1 2) "1" /\
    Includes (masterMismatchWarning 1 2) "2" /\
    Includes (masterMismatchWarning 1 2) "Check if it is the correct master".
Proof.
  assert (Hb : bundlesOf smallXtb = 1) by reflexivity.
  assert (Hm : newXmbFile (xmlContent masterDe) (path masterDe) (encoding masterDe)
               = Some (mkXmb (parse (xmlContent masterDe)) (path masterDe)))
    by reflexivity.
  split; [exact Hb |]. split; [exact Hm |].
  exact (master_count_mismatch_warns_once smallXtb "messages.en.xtb" "UTF-8"
           masterDe _ Hb Hm).
Defined.

(** The text of the mismatch warning for counts 1 and 2. *)
Example mismatch_warning_text :
  masterMismatchWarning 1 2
  = "1 trans units found in master, but this file has 2. Check if it is the correct master".
Proof. reflexivity. Qed.

Lemma importNewTransUnit_duplicate_leaves_document_witness :
  exists existing,
    observe (transUnitWithId (id duplicateUnit)) documentB = inr (Some existing) /\
    observe (importNewTransUnit duplicateUnit false true) documentB
      = inl (duplicateIdError "first") /\
    _parsedDocument (after (importNewTransUnit duplicateUnit false true) documentB)
      = _parsedDocument documentB /\
    observe warnings (after (importNewTransUnit duplicateUnit false true) documentB)
      = observe warnings documentB.
Proof.
  eexists.
  assert (Hexisting :
            observe (transUnitWithId (id duplicateUnit)) documentB
            = inr (Some (unitOfTranslation None
                           (Element "translation" [("id", "first")]
                              [Text "My first I18N Application"]))))
    by reflexivity.
  split; [exact Hexisting |].
  destruct (importNewTransUnit_duplicate_leaves_document documentB duplicateUnit
              false true _ Hexisting)
    as (Hthrows & _ & _ & Hdoc & _ & _ & _ & _ & _ & Hwarnings & _).
  split; [exact Hthrows |]. split; [exact Hdoc | exact Hwarnings].
Defined.

Lemma imported_content_decorated_unless_ICU_witness :
  hasBundle documentBWithPraefix /\
  observe (transUnitWithId (id icuUnit)) documentBWithPraefix = inr None /\
  exists tu f' praefix suffix,
    importNewTransUnit icuUnit false true documentBWithPraefix
      = (inr (Some tu), f') /\
    observe getNewTransUnitTargetPraefix documentBWithPraefix = inr praefix /\
    observe getNewTransUnitTargetSuffix documentBWithPraefix = inr suffix /\
    In (_element tu) (Dom.getElementsByTagName (_parsedDocument f') "translation") /\
    Dom.getAttribute (_element tu) "id" = id icuUnit /\
    DOMUtilities.getXMLContent (_element tu) =
      (if isICUMessage icuUnit (sourceContent icuUnit)
       then sourceContent icuUnit
       else praefix ++ sourceContent icuUnit ++ suffix).
Proof.
  assert (Hb : hasBundle documentBWithPraefix) by (vm_compute; discriminate).
  assert (Hfresh : observe (transUnitWithId (id icuUnit)) documentBWithPraefix
                   = inr None) by reflexivity.
  split; [exact Hb |]. split; [exact Hfresh |].
  exact (imported_content_decorated_unless_ICU documentBWithPraefix icuUnit
           false true Hb Hfresh).
Defined.

Lemma sourceLanguage_delegates_to_master_witness :
  _masterFile documentB = None /\
  sourceLanguage documentB = (inr None, documentB) /\
  setSourceLanguage "fr" documentB = (inr tt, documentB) /\
  sourceLanguage (constructed smallXtb "messages.en.xtb" (Some masterDe))
  = (inr (Some "de"), constructed smallXtb "messages.en.xtb" (Some masterDe)).
Proof.
  assert (Hnone : _masterFile documentB = None) by reflexivity.
  split; [exact Hnone |].
  destruct (sourceLanguage_delegates_to_master documentB "fr") as [Hwithout _].
  destruct (Hwithout Hnone) as [Hget Hset].
  split; [exact Hget |]. split; [exact Hset |].
  destruct (sourceLanguage_delegates_to_master
              (constructed smallXtb "messages.en.xtb" (Some masterDe)) "fr")
    as [_ Hwith].
  exact (Hwith (mkXmb (parse (xmlContent masterDe)) (path masterDe)) eq_refl).
Defined.

Lemma eleven_units_one_without_id_witness :
  bundlesOf elevenXtb = 1 /\
  length (translationsOf elevenXtb) = 11 /\
  length (filter lacksId (translationsOf elevenXtb)) = 1 /\
  exists f,
    newXtbFile elevenXtb "ngExtractedMaster1.en.xtb" "UTF-8" None = inr f /\
    observe numberOfTransUnits f = inr 11 /\
    observe numberOfTransUnitsWithMissingId f = inr 1 /\
    exists ws w,
      observe warnings f = inr ws /\
      In w ws /\
      Includes w ("without " ++ dquote ++ "id" ++ dquote).
Proof.
  assert (Hb : bundlesOf elevenXtb = 1) by reflexivity.
  assert (Hall : length (translationsOf elevenXtb) = 11) by reflexivity.
  assert (Hmissing : length (filter lacksId (translationsOf elevenXtb)) = 1)
    by reflexivity.
  split; [exact Hb |]. split; [exact Hall |]. split; [exact Hmissing |].
  exact (eleven_units_one_without_id elevenXtb "ngExtractedMaster1.en.xtb" "UTF-8"
           None Hb I Hall Hmissing).
Defined.

Lemma importNewTransUnit_never_null_witness :
  Reachable documentBWithPraefix /\
  observe (transUnitWithId (id unitToMerge)) documentBWithPraefix = inr None /\
  exists tu f' l,
    importNewTransUnit unitToMerge true false documentBWithPraefix
      = (inr (Some tu), f') /\
    _id tu = id unitToMerge /\
    transUnits (after lazyInitializeTransUnits documentBWithPraefix) = Some l /\
    transUnits f' = Some (l ++ [tu])%list /\
    observe numberOfTransUnits f' = inr (S (length l)) /\
    hasBundle f'.
Proof.
  assert (Hreach : Reachable documentBWithPraefix).
  { apply reachable_call.
    apply (reachable_new smallXtb "messages.en.xtb" "UTF-8" None).
    reflexivity. }
  assert (Hfresh : observe (transUnitWithId (id unitToMerge)) documentBWithPraefix
                   = inr None) by reflexivity.
  split; [exact Hreach |]. split; [exact Hfresh |].
  exact (importNewTransUnit_never_null documentBWithPraefix unitToMerge true false
           Hreach Hfresh).
Defined.

Lemma missing_id_warnings_precede_mismatch_witness :
  bundlesOf smallXtb = 1 /\
  masterNumberOfTransUnits (mkXmb (parse (xmlContent masterDe)) (path masterDe))
    <> length (translationsOf smallXtb) /\
  exists f ws,
    newXtbFile smallXtb "messages.en.xtb" "UTF-8" (Some masterDe) = inr f /\
    observe warnings f = inr ws /\
    ws = (missingIdWarnings "messages.en.xtb" (translationsOf smallXtb)
            ++ [masterMismatchWarning 1 2])%list /\
    length ws = 2 /\
    (forall i j,
        nth_error ws i = Some (missingIdWarning "messages.en.xtb") ->
        nth_error ws j = Some (masterMismatchWarning 1 2) ->
        i < j).
Proof.
  assert (Hb : bundlesOf smallXtb = 1) by reflexivity.
  assert (Hm : newXmbFile (xmlContent masterDe) (path masterDe) (encoding masterDe)
               = Some (mkXmb (parse (xmlContent masterDe)) (path masterDe)))
    by reflexivity.
  assert (Hne : masterNumberOfTransUnits
                  (mkXmb (parse (xmlContent masterDe)) (path masterDe))
                <> length (translationsOf smallXtb))
    by (vm_compute; discriminate).
  split; [exact Hb |]. split; [exact Hne |].
  exact (missing_id_warnings_precede_mismatch smallXtb "messages.en.xtb" "UTF-8"
           masterDe _ Hb Hm Hne).
Defined.

(** ** The further properties on the sample files *)

Lemma reachable_documentBWithPraefix : Reachable documentBWithPraefix.
Proof.
  apply reachable_call.
  apply (reachable_new smallXtb "messages.en.xtb" "UTF-8" None).
  reflexivity.
Qed.


Lemma targetLanguage_never_null_witness :
  Reachable documentBWithPraefix /\
  exists bundle rest,
    Dom.getElementsByTagName (_parsedDocument documentBWithPraefix) "translationbundle"
    = bundle :: rest /\
    targetLanguage documentBWithPraefix
    = (inr (Some (Dom.getAttribute bundle "lang")), documentBWithPraefix).
Proof.
  split; [exact reachable_documentBWithPraefix |].
  exact (targetLanguage_never_null documentBWithPraefix
           reachable_documentBWithPraefix).
Defined.

Lemma missing_id_count_reflects_units_witness :
  Reachable (perform (CallImportNewTransUnit unitToMerge false true)
               documentBWithPraefix) /\
  exists l,
    transUnits (forced (perform (CallImportNewTransUnit unitToMerge false true)
                          documentBWithPraefix)) = Some l /\
    observe numberOfTransUnits
      (perform (CallImportNewTransUnit unitToMerge false true) documentBWithPraefix)
    = inr (length l) /\
    observe numberOfTransUnitsWithMissingId
      (perform (CallImportNewTransUnit unitToMerge false true) documentBWithPraefix)
    = inr (length (filter (fun tu => String.eqb (_id tu) "") l)).
Proof.
  assert (Hreach : Reachable (perform (CallImportNewTransUnit unitToMerge false true)
                                documentBWithPraefix))
    by (apply reachable_call; exact reachable_documentBWithPraefix).
  split; [exact Hreach |].
  exact (missing_id_count_reflects_units _ Hreach).
Defined.

(** The document of the witness above holds three units after the
    import, one of them (from the file) without id. *)
Example counts_after_import :
  observe numberOfTransUnits
    (perform (CallImportNewTransUnit unitToMerge false true) documentBWithPraefix)
  = inr 3 /\
  observe numberOfTransUnitsWithMissingId
    (perform (CallImportNewTransUnit unitToMerge false true) documentBWithPraefix)
  = inr 1.
Proof. split; vm_compute; reflexivity. Qed.

Lemma units_carry_the_id_of_their_element_witness :
  Reachable documentBWithPraefix /\
  exists l,
    transUnits (forced documentBWithPraefix) = Some l /\
    Forall (fun tu => _id tu = Dom.getAttribute (_element tu) "id") l.
Proof.
  split; [exact reachable_documentBWithPraefix |].
  exact (units_carry_the_id_of_their_element documentBWithPraefix
           reachable_documentBWithPraefix).
Defined.

Lemma calls_keep_ids_distinct_witness :
  NoDup (unitIds documentB) /\
  NoDup (unitIds (perform (CallImportNewTransUnit unitToMerge false true) documentB)).
Proof.
  assert (Hnodup : NoDup (unitIds documentB)).
  { vm_compute. repeat constructor; simpl; intuition discriminate. }
  split; [exact Hnodup |].
  exact (calls_keep_ids_distinct (CallImportNewTransUnit unitToMerge false true)
           documentB Hnodup).
Defined.

Lemma importNewTransUnit_keeps_the_rest_witness :
  Reachable documentBWithPraefix /\
  observe (transUnitWithId (id unitToMerge)) documentBWithPraefix = inr None /\
  observe warnings (after (importNewTransUnit unitToMerge false true) documentBWithPraefix)
  = observe warnings documentBWithPraefix /\
  unitIds (after (importNewTransUnit unitToMerge false true) documentBWithPraefix)
  = (unitIds documentBWithPraefix ++ [id unitToMerge])%list.
Proof.
  assert (Hfresh : observe (transUnitWithId (id unitToMerge)) documentBWithPraefix
                   = inr None) by reflexivity.
  split; [exact reachable_documentBWithPraefix |]. split; [exact Hfresh |].
  destruct (importNewTransUnit_keeps_the_rest documentBWithPraefix unitToMerge
              false true reachable_documentBWithPraefix Hfresh)
    as (_ & Hwarnings & _ & Hids & _).
  split; [exact Hwarnings | exact Hids].
Defined.

Lemma importNewTransUnit_again_throws_witness :
  hasBundle documentB /\
  observe (transUnitWithId (id unitToMerge)) documentB = inr None /\
  importNewTransUnit unitToMerge true true
    (after (importNewTransUnit unitToMerge false true) documentB)
  = (inl (duplicateIdError (id unitToMerge)),
     after (importNewTransUnit unitToMerge false true) documentB).
Proof.
  assert (Hb : hasBundle documentB) by (vm_compute; discriminate).
  assert (Hfresh : observe (transUnitWithId (id unitToMerge)) documentB = inr None)
    by reflexivity.
  split; [exact Hb |]. split; [exact Hfresh |].
  exact (importNewTransUnit_again_throws documentB unitToMerge unitToMerge
           false true true true Hb Hfresh eq_refl).
Defined.

Lemma imported_id_occurs_once_witness :
  hasBundle documentB /\
  observe (transUnitWithId (id unitToMerge)) documentB = inr None /\
  count_occ string_dec
    (unitIds (after (importNewTransUnit unitToMerge false true) documentB))
    (id unitToMerge) = 1 /\
  observe numberOfTransUnits (after (importNewTransUnit unitToMerge false true) documentB)
  = inr (S (length (unitIds documentB))).
Proof.
  assert (Hb : hasBundle documentB) by (vm_compute; discriminate).
  assert (Hfresh : observe (transUnitWithId (id unitToMerge)) documentB = inr None)
    by reflexivity.
  split; [exact Hb |]. split; [exact Hfresh |].
  exact (imported_id_occurs_once documentB unitToMerge false true Hb Hfresh).
Defined.

Lemma transUnitWithId_finds_first_translation_witness :
  newXtbFile smallXtb "messages.en.xtb" "UTF-8" (Some masterDe)
  = inr (constructed smallXtb "messages.en.xtb" (Some masterDe)) /\
  observe (transUnitWithId "first")
    (constructed smallXtb "messages.en.xtb" (Some masterDe))
  = inr (option_map
           (unitOfTranslation
              (_masterFile (constructed smallXtb "messages.en.xtb" (Some masterDe))))
           (find (fun msg => String.eqb (Dom.getAttribute msg "id") "first")
                 (translationsOf smallXtb))).
Proof.
  assert (Hnew : newXtbFile smallXtb "messages.en.xtb" "UTF-8" (Some masterDe)
                 = inr (constructed smallXtb "messages.en.xtb" (Some masterDe)))
    by (vm_compute; reflexivity).
  split; [exact Hnew |].
  exact (proj1 (transUnitWithId_finds_first_translation smallXtb "messages.en.xtb"
                  "UTF-8" (Some masterDe) _ "first" Hnew)).
Defined.

Lemma warnings_count_units_without_id_witness :
  newXtbFile smallXtb "messages.en.xtb" "UTF-8" (Some masterDe)
  = inr (constructed smallXtb "messages.en.xtb" (Some masterDe)) /\
  exists ws missing,
    observe warnings (constructed smallXtb "messages.en.xtb" (Some masterDe)) = inr ws /\
    observe numberOfTransUnitsWithMissingId
      (constructed smallXtb "messages.en.xtb" (Some masterDe)) = inr missing /\
    length ws = S missing.
Proof.
  assert (Hnew : newXtbFile smallXtb "messages.en.xtb" "UTF-8" (Some masterDe)
                 = inr (constructed smallXtb "messages.en.xtb" (Some masterDe)))
    by (vm_compute; reflexivity).
  split; [exact Hnew |].
  destruct (warnings_count_units_without_id smallXtb "messages.en.xtb" "UTF-8"
              (Some masterDe) _ Hnew)
    as (ws & missing & Hws & Hmissing & _ & _ & Hlength).
  exists ws, missing. split; [exact Hws |]. split; [exact Hmissing |].
  rewrite Hlength. vm_compute. apply Nat.add_1_r.
Defined.

Lemma construction_error_tells_the_file_witness :
  newXtbFile noXtb "messages.en.xtb" "UTF-8" (Some notAMaster)
  = inl (noXtbFileError "messages.en.xtb") /\
  parseFromString noXtb <> None /\
  bundlesOf noXtb <> 1.
Proof.
  assert (Hnew : newXtbFile noXtb "messages.en.xtb" "UTF-8" (Some notAMaster)
                 = inl (noXtbFileError "messages.en.xtb"))
    by (vm_compute; reflexivity).
  split; [exact Hnew |].
  destruct (construction_error_tells_the_file noXtb "messages.en.xtb" "UTF-8"
              (Some notAMaster) _ Hnew) as (_ & (Hcause & _) & _).
  exact (Hcause eq_refl).
Defined.

(** For the empty text the parser returns undefined and the constructor
    throws the TypeError, with or without a master. *)
Example empty_text_throws_TypeError :
  newXtbFile "" "messages.en.xtb" "UTF-8" None = inl undefinedDocumentError /\
  newXtbFile "" "messages.en.xtb" "UTF-8" (Some masterDe) = inl undefinedDocumentError.
Proof. split; vm_compute; reflexivity. Qed.
